(** * The scenario-editor controller of OpenRCT2 (src/openrct2/Editor.cpp)

    A shallow embedding of [namespace Editor]: the selected-object flag
    store, the object-group validator, the park validator, the
    landscape-import clean-up and the session entry points, with the
    properties the specification states about them. *)

From Stdlib Require Import ZArith Lia Bool.
From Stdlib.Strings Require Import Ascii String Byte.
From stdpp Require Import base tactics option list functions.

Local Open Scope Z_scope.

(** ** Machine integers *)

(** [uint8_t] values are [Byte.byte]; arithmetic on them goes through [Z],
    as the integer promotions of C++ do, and is cut back to eight bits on
    assignment. *)
Definition uint8_to_Z (b : byte) : Z := Z.of_N (Byte.to_N b).

Definition uint8_of_Z (z : Z) : byte :=
  match Byte.of_N (Z.to_N (z mod 256)) with
  | Some b => b
  | None => x00
  end.

(** [~x] on a [uint32_t]. *)
Definition uint32_not (x : Z) : Z := Z.lnot x mod 2 ^ 32.

(** [std::clamp(v, lo, hi)]; the standard asks for [lo <= hi]. *)
Definition clamp (v lo hi : Z) : Z :=
  if v <? lo then lo else if hi <? v then hi else v.


(** ** Enumerations *)

(** The enumerators that [Editor.cpp] and the specification name.  The
    declaration itself (object/Object.h) is not part of the sources at
    hand; [None] is the reserved value "no kind". *)
Module ObjectType.
Inductive t : Set :=
| Ride | Station | TerrainSurface | TerrainEdge
| FootpathSurface | FootpathRailings | ParkEntrance | Water
| Paths | Scenery | Music
| None.
End ObjectType.

#[global] Instance ObjectType_eq_dec : EqDecision ObjectType.t.
Proof. solve_decision. Defined.

Module EditorStep.
Inductive t : Set :=
| ObjectSelection | InventionsListSetUp | OptionsSelection
| ObjectiveSelection | LandscapeEditor | SaveScenario
| RollercoasterDesigner | DesignsManager
| Invalid.
End EditorStep.

#[global] Instance EditorStep_eq_dec : EqDecision EditorStep.t.
Proof. solve_decision. Defined.

(** The message codes [Editor.cpp] uses. *)
Inductive StringId : Set :=
| STR_NONE
| STR_MY_NEW_SCENARIO
| STR_AT_LEAST_ONE_FOOTPATH_NON_QUEUE_SURFACE_OBJECT_MUST_BE_SELECTED
| STR_AT_LEAST_ONE_FOOTPATH_QUEUE_SURFACE_OBJECT_MUST_BE_SELECTED
| STR_AT_LEAST_ONE_FOOTPATH_RAILING_OBJECT_MUST_BE_SELECTED
| STR_AT_LEAST_ONE_RIDE_OBJECT_MUST_BE_SELECTED
| STR_AT_LEAST_ONE_STATION_OBJECT_MUST_BE_SELECTED
| STR_AT_LEAST_ONE_TERRAIN_SURFACE_OBJECT_MUST_BE_SELECTED
| STR_AT_LEAST_ONE_TERRAIN_EDGE_OBJECT_MUST_BE_SELECTED
| STR_PARK_ENTRANCE_TYPE_MUST_BE_SELECTED
| STR_WATER_TYPE_MUST_BE_SELECTED
| STR_PARK_MUST_OWN_SOME_LAND
| STR_NO_PARK_ENTRANCES
| STR_PARK_ENTRANCE_WRONG_DIRECTION_OR_NO_PATH
| STR_PARK_ENTRANCE_PATH_INCOMPLETE_OR_COMPLEX
| STR_PEEP_SPAWNS_NOT_SET.

#[global] Instance StringId_eq_dec : EqDecision StringId.
Proof. solve_decision. Defined.

(** The four replies of the footpath search. *)
Inductive FootpathSearchResult : Set :=
| FOOTPATH_SEARCH_SUCCESS
| FOOTPATH_SEARCH_NOT_FOUND
| FOOTPATH_SEARCH_INCOMPLETE
| FOOTPATH_SEARCH_TOO_COMPLEX.

#[global] Instance FootpathSearchResult_eq_dec : EqDecision FootpathSearchResult.
Proof. solve_decision. Defined.

Inductive FileExtension : Set :=
| FileExtension_Unknown | FileExtension_DAT
| FileExtension_SC4 | FileExtension_SV4 | FileExtension_TD4
| FileExtension_SC6 | FileExtension_SV6 | FileExtension_TD6
| FileExtension_PARK.

Inductive WindowClass : Set :=
| WindowClass_MainWindow | WindowClass_TopToolbar | WindowClass_Loadsave.

Inductive EntityType : Set := Entity_Guest | Entity_Staff | Entity_Other.

(** ** The selected-object flag store *)

(** Constants of the object headers that the store refers to; their
    declarations are not part of the sources at hand, so they are taken as
    given. *)
Class ObjectLimits := {
  OBJECT_ENTRY_INDEX_NULL : nat;
  EnumValue : ObjectType.t -> Z;
  object_entry_group_counts : ObjectType.t -> Z
}.

(** [_editorSelectedObjectFlags]: one vector of flag bytes per object
    type.  [std::array] has a slot for each enumerator below [Count];
    [ObjectType::None] is not among them and is never looked up by
    well-formed callers, the model gives it a vector of its own.  An
    index is a natural number, as the length of a vector is: a vector
    that holds the slot [index] has [index + 1] elements, and neither the
    one [size_t] at which [index + 1] wraps to zero nor the end of memory
    is part of the model. *)
Abbreviation FlagStore := (ObjectType.t -> list byte).

(** The store before anything was written: every vector is empty. *)
Definition FlagStore_fresh : FlagStore := fun _ => [].

(** Code of the flag store runs on the store and hands back a value. *)
Definition StoreM (A : Type) : Type := FlagStore -> A * FlagStore.

Definition ret {A} (a : A) : StoreM A := fun st => (a, st).

Definition bind {A B} (m : StoreM A) (k : A -> StoreM B) : StoreM B :=
  fun st => let (a, st1) := m st in k a st1.

Notation "m >> k" := (bind m (fun _ => k))
  (at level 61, left associativity).

Definition exec {A} (m : StoreM A) (st : FlagStore) : FlagStore := snd (m st).
Definition eval {A} (m : StoreM A) (st : FlagStore) : A := fst (m st).

Definition GetSelectedObjectFlags (objectType : ObjectType.t) (index : nat)
  : StoreM byte := fun st =>
  let result := x00 in
  let list := st objectType in
  let result :=
    if (index <? length list)%nat then nth index list x00
    else result in
  (result, st).

Definition ClearSelectedObject (objectType : ObjectType.t) (index : nat)
    (flags : Z) : StoreM unit := fun st =>
  let list := st objectType in
  let list :=
    if (length list <=? index)%nat
    then resize (index + 1) x00 list else list in
  let list :=
    alter (fun b => uint8_of_Z (Z.land (uint8_to_Z b) (uint32_not flags)))
      index list in
  (tt, <[objectType := list]> st).

(** The condition of the [assert] in [SetSelectedObject].  An assertion
    changes no state: it is compiled out under [NDEBUG] and stops the
    program otherwise, so the store transformer below is the code around
    it. *)
Definition SetSelectedObject_assertion {L : ObjectLimits}
    (objectType : ObjectType.t) : bool :=
  EnumValue objectType <? object_entry_group_counts ObjectType.Paths.

Definition SetSelectedObject {L : ObjectLimits} (objectType : ObjectType.t)
    (index : nat) (flags : Z) : StoreM unit := fun st =>
  if negb (index =? OBJECT_ENTRY_INDEX_NULL)%nat then
    let list := st objectType in
    let list :=
      if (length list <=? index)%nat
      then resize (index + 1) x00 list else list in
    let list :=
      alter (fun b => uint8_of_Z (Z.lor (uint8_to_Z b) flags)) index list in
    (tt, <[objectType := list]> st)
  else (tt, st).

(** The byte at [index] of the vector of [objectType], zero where the
    vector has no such slot: what [GetSelectedObjectFlags] returns. *)
Definition slot (st : FlagStore) (objectType : ObjectType.t) (index : nat)
  : byte := default x00 (st objectType !! index).

(** A vector after [if (list.size() <= index) list.resize(index + 1)]. *)
Definition grown (l : list byte) (index : nat) : list byte :=
  if (length l <=? index)%nat then resize (index + 1) x00 l else l.

(** [b & ~flags] and [b | flags] in an eight-bit slot. *)
Definition and_not (flags : Z) (b : byte) : byte :=
  uint8_of_Z (Z.land (uint8_to_Z b) (uint32_not flags)).

Definition or_in (flags : Z) (b : byte) : byte :=
  uint8_of_Z (Z.lor (uint8_to_Z b) flags).

(** ** The world the controller works on *)

(** The state of the subsystems behind the controller's seams (engine,
    window manager, object manager, importer).  Their code is not part of
    the sources at hand: the controller only hands these values on. *)
Class Facade := {
  TileMap : Type;
  RideRegistry : Type;
  BannerList : Type;
  EntityData : Type;
  PatrolAreas : Type;
  ClimateState : Type;
  NewsQueue : Type;
  ViewState : Type;
  Ui : Type;
  Window : Type;
  WorldCoords : Type;
  Objects : Type;
  ObjectEntry : Type;
  Importer : Type;
  LoadResult : Type;
  Language : Type
}.

Record TileCoordsXY : Set := { tile_x : Z; tile_y : Z }.
Record TileCoordsXYZ : Set := { tile3_x : Z; tile3_y : Z; tile3_z : Z }.

Module CoordsXYZD.
Record t : Set := { x : Z; y : Z; z : Z; direction : Z }.
End CoordsXYZD.

Record MapRange : Set :=
  { range_left : Z; range_top : Z; range_right : Z; range_bottom : Z }.

Record Entity `{Facade} := {
  Type_ : EntityType;
  Name : string;
  Data : EntityData
}.

Module Park.
Record t : Type := {
  Flags : Z;
  EntranceFee : Z;
  Size : Z;
  Entrances : list CoordsXYZD.t
}.
End Park.

Record GameState_t `{Facade} := {
  EditorStep : EditorStep.t;
  Park : Park.t;
  PeepSpawns : list CoordsXYZD.t;
  ScenarioCategory : Z;
  ScenarioName : string;
  NumGuestsInPark : Z;
  NumGuestsHeadingForPark : Z;
  NumGuestsInParkLastWeek : Z;
  GuestChangeModifier : Z;
  GuestInitialCash : Z;
  InitialCash : Z;
  Cash : Z;
  BankLoan : Z;
  MaxBankLoan : Z;
  BankLoanInterestRate : Z;
  Climate : ClimateState;
  MapSize : TileCoordsXY;
  SavedView : ViewState;
  TileElements : TileMap;
  Rides : RideRegistry;
  Banners : BannerList;
  Entities : list Entity;
  StaffPatrolAreas : PatrolAreas;
  NewsItems : NewsQueue
}.

(** The game state with the globals of the program around it. *)
Record Machine `{Facade} := {
  gameState : GameState_t;
  gScreenFlags : Z;
  gScreenAge : Z;
  gWindowUpdateTicks : Z;
  ui : Ui;
  objects : Objects
}.

Inductive LandSetRightSetting : Set := LandSetRightSetting_SetForSale.
Inductive LandBuyRightSetting : Set := LandBuyRightSetting_BuyLand.

(** A game action with the flags set on it. *)
Inductive GameAction : Set :=
| LandSetRightsAction (range : MapRange) (setting : LandSetRightSetting)
    (flags : Z)
| LandBuyRightsAction (range : MapRange) (setting : LandBuyRightSetting)
    (flags : Z).

Inductive Callback : Set := Callback_ConvertSaveToScenario.

Inductive IntentExtra : Set :=
| INTENT_EXTRA_LOADSAVE_TYPE (value : Z)
| INTENT_EXTRA_CALLBACK (callback : Callback).

Inductive IntentAction : Set :=
| INTENT_ACTION_REFRESH_NEW_RIDES
| INTENT_ACTION_CLEAR_TILE_INSPECTOR_CLIPBOARD.

Inductive Intent : Set :=
| Intent_Window (windowClass : WindowClass) (extras : list IntentExtra)
| Intent_Action (action : IntentAction).

(** Constants of headers that are not part of the sources at hand. *)
Class Headers := {
  SCREEN_FLAGS_SCENARIO_EDITOR : Z;
  SCREEN_FLAGS_TRACK_DESIGNER : Z;
  SCREEN_FLAGS_TRACK_MANAGER : Z;
  MODAL_RESULT_OK : Z;
  DEFAULT_MAP_SIZE : TileCoordsXY;
  COORDS_XY_STEP : Z;
  PARK_FLAGS_SHOW_REAL_GUEST_NAMES : Z;
  PARK_FLAGS_NO_MONEY : Z;
  PARK_FLAGS_PARK_FREE_ENTRY : Z;
  PARK_FLAGS_SPRITES_INITIALISED : Z;
  SCENARIO_CATEGORY_OTHER : Z;
  MAX_ENTRANCE_FEE : Z;
  MaxBankLoanInterestRate : Z;
  MoneyPerUnit : Z;
  GAME_COMMAND_FLAG_NO_SPEND : Z;
  LOADSAVETYPE_LOAD : Z;
  LOADSAVETYPE_GAME : Z;
  WV_EDITOR_BOTTOM_TOOLBAR : Z
}.

(** The functions of other translation units that [Editor.cpp] calls.
    Each works on the part of the state it is handed; a function that can
    throw or fail hands back a flag with the state it leaves.
    [AfterLoadCleanup_exception] stands for an exception that escapes from
    one of the calls made by [AfterLoadCleanup]: the machine that the
    exception leaves behind, or [None] when the clean-up runs to its
    end.  Only the [try] block of [ReadPark] catches one. *)
Class Collaborators `{Facade} := {
  Audio_StopAll : Ui -> Ui;
  Audio_LoadAudioObjects : Objects -> Objects;
  ObjectManager_UnloadAll : Objects -> Objects;
  ObjectManagerUnloadAllObjects : Objects -> Objects;
  ObjectRepository_LoadOrConstruct : Language -> Objects -> Objects;
  GetCurrentLanguage : Ui -> Language;
  MinimumRequiredObjects : list ObjectEntry;
  ObjectManager_LoadObject : ObjectEntry -> Objects -> Objects;
  ObjectManager_LoadObjects : list ObjectEntry -> Objects -> Objects * bool;
  gameStateInitAll : TileCoordsXY -> GameState_t -> GameState_t;
  ScenarioReset : GameState_t -> GameState_t;
  GameActions_Execute : GameAction -> GameState_t -> GameState_t;
  ViewportInitAll : Ui -> Ui;
  ContextOpenWindow : WindowClass -> Ui -> Window * Ui;
  ContextOpenWindowView : Z -> Ui -> Ui;
  TileCoordsXYZ_ToCoordsXYZ : TileCoordsXYZ -> WorldCoords;
  Window_SetLocation : WorldCoords -> Window -> Ui -> Ui;
  LoadPalette : Ui -> Ui;
  LanguageGetString : StringId -> string;
  ToolCancel : Ui -> Ui;
  ContextOpenIntent : Intent -> Ui -> Ui;
  WindowCloseAll : Ui -> Ui;
  WindowManager_SetMainView : ViewState -> Ui -> Ui;
  WindowManager_BroadcastIntent : Intent -> Ui -> Ui;
  ResetAllSpriteQuadrantPlacements : list Entity -> list Entity;
  ScenerySetDefaultPlacementConfiguration : Ui -> Ui;
  LoadParkFromFile : string -> Machine -> Machine * bool;
  GetFileExtensionType : string -> FileExtension;
  Path_GetExtension : string -> string;
  ParkImporter_CreateParkFile : Objects -> Importer;
  Importer_Load : string -> Importer -> option (Importer * LoadResult);
  RequiredObjects : LoadResult -> list ObjectEntry;
  Importer_Import : Importer -> GameState_t -> GameState_t * bool;
  AfterLoadCleanup_exception : Machine -> option Machine;
  MapRemoveAllRides : TileMap -> TileMap;
  UnlinkAllRideBanners : BannerList -> BannerList;
  RideInitAll : RideRegistry -> RideRegistry;
  ResetAllEntities : list Entity -> list Entity;
  UpdateConsolidatedPatrolAreas : list Entity -> PatrolAreas -> PatrolAreas;
  ClimateReset : ClimateState -> ClimateState;
  News_InitQueue : NewsQueue -> NewsQueue;
  CalculateParkSize : TileMap -> Z;
  DirectionReverse : Z -> Z;
  FootpathIsConnectedToMapEdge :
    CoordsXYZD.t -> Z -> Z -> TileMap -> FootpathSearchResult * TileMap;
  EditorCheckObjectGroupAtLeastOneSurfaceSelected : bool -> Objects -> bool;
  EditorCheckObjectGroupAtLeastOneSelected : ObjectType.t -> Objects -> bool;
  MapHasRides : TileMap -> bool;
  RideCount : RideRegistry -> nat
}.

(** ** Assignments to single fields *)

Definition set_EditorStep `{Facade} (v : EditorStep.t) (s : GameState_t) : GameState_t :=
  {| EditorStep := v; Park := Park s; PeepSpawns := PeepSpawns s;
     ScenarioCategory := ScenarioCategory s; ScenarioName := ScenarioName s;
     NumGuestsInPark := NumGuestsInPark s;
     NumGuestsHeadingForPark := NumGuestsHeadingForPark s;
     NumGuestsInParkLastWeek := NumGuestsInParkLastWeek s;
     GuestChangeModifier := GuestChangeModifier s;
     GuestInitialCash := GuestInitialCash s; InitialCash := InitialCash s;
     Cash := Cash s; BankLoan := BankLoan s; MaxBankLoan := MaxBankLoan s;
     BankLoanInterestRate := BankLoanInterestRate s; Climate := Climate s;
     MapSize := MapSize s; SavedView := SavedView s;
     TileElements := TileElements s; Rides := Rides s; Banners := Banners s;
     Entities := Entities s; StaffPatrolAreas := StaffPatrolAreas s;
     NewsItems := NewsItems s |}.

Definition set_Park `{Facade} (v : Park.t) (s : GameState_t) : GameState_t :=
  {| EditorStep := EditorStep s; Park := v; PeepSpawns := PeepSpawns s;
     ScenarioCategory := ScenarioCategory s; ScenarioName := ScenarioName s;
     NumGuestsInPark := NumGuestsInPark s;
     NumGuestsHeadingForPark := NumGuestsHeadingForPark s;
     NumGuestsInParkLastWeek := NumGuestsInParkLastWeek s;
     GuestChangeModifier := GuestChangeModifier s;
     GuestInitialCash := GuestInitialCash s; InitialCash := InitialCash s;
     Cash := Cash s; BankLoan := BankLoan s; MaxBankLoan := MaxBankLoan s;
     BankLoanInterestRate := BankLoanInterestRate s; Climate := Climate s;
     MapSize := MapSize s; SavedView := SavedView s;
     TileElements := TileElements s; Rides := Rides s; Banners := Banners s;
     Entities := Entities s; StaffPatrolAreas := StaffPatrolAreas s;
     NewsItems := NewsItems s |}.

Definition set_ScenarioCategory `{Facade} (v : Z) (s : GameState_t) : GameState_t :=
  {| EditorStep := EditorStep s; Park := Park s; PeepSpawns := PeepSpawns s;
     ScenarioCategory := v; ScenarioName := ScenarioName s;
     NumGuestsInPark := NumGuestsInPark s;
     NumGuestsHeadingForPark := NumGuestsHeadingForPark s;
     NumGuestsInParkLastWeek := NumGuestsInParkLastWeek s;
     GuestChangeModifier := GuestChangeModifier s;
     GuestInitialCash := GuestInitialCash s; InitialCash := InitialCash s;
     Cash := Cash s; BankLoan := BankLoan s; MaxBankLoan := MaxBankLoan s;
     BankLoanInterestRate := BankLoanInterestRate s; Climate := Climate s;
     MapSize := MapSize s; SavedView := SavedView s;
     TileElements := TileElements s; Rides := Rides s; Banners := Banners s;
     Entities := Entities s; StaffPatrolAreas := StaffPatrolAreas s;
     NewsItems := NewsItems s |}.

Definition set_ScenarioName `{Facade} (v : string) (s : GameState_t) : GameState_t :=
  {| EditorStep := EditorStep s; Park := Park s; PeepSpawns := PeepSpawns s;
     ScenarioCategory := ScenarioCategory s; ScenarioName := v;
     NumGuestsInPark := NumGuestsInPark s;
     NumGuestsHeadingForPark := NumGuestsHeadingForPark s;
     NumGuestsInParkLastWeek := NumGuestsInParkLastWeek s;
     GuestChangeModifier := GuestChangeModifier s;
     GuestInitialCash := GuestInitialCash s; InitialCash := InitialCash s;
     Cash := Cash s; BankLoan := BankLoan s; MaxBankLoan := MaxBankLoan s;
     BankLoanInterestRate := BankLoanInterestRate s; Climate := Climate s;
     MapSize := MapSize s; SavedView := SavedView s;
     TileElements := TileElements s; Rides := Rides s; Banners := Banners s;
     Entities := Entities s; StaffPatrolAreas := StaffPatrolAreas s;
     NewsItems := NewsItems s |}.

Definition set_TileElements `{Facade} (v : TileMap) (s : GameState_t) : GameState_t :=
  {| EditorStep := EditorStep s; Park := Park s; PeepSpawns := PeepSpawns s;
     ScenarioCategory := ScenarioCategory s; ScenarioName := ScenarioName s;
     NumGuestsInPark := NumGuestsInPark s;
     NumGuestsHeadingForPark := NumGuestsHeadingForPark s;
     NumGuestsInParkLastWeek := NumGuestsInParkLastWeek s;
     GuestChangeModifier := GuestChangeModifier s;
     GuestInitialCash := GuestInitialCash s; InitialCash := InitialCash s;
     Cash := Cash s; BankLoan := BankLoan s; MaxBankLoan := MaxBankLoan s;
     BankLoanInterestRate := BankLoanInterestRate s; Climate := Climate s;
     MapSize := MapSize s; SavedView := SavedView s; TileElements := v;
     Rides := Rides s; Banners := Banners s; Entities := Entities s;
     StaffPatrolAreas := StaffPatrolAreas s; NewsItems := NewsItems s |}.

Definition set_Entities `{Facade} (v : list Entity) (s : GameState_t) : GameState_t :=
  {| EditorStep := EditorStep s; Park := Park s; PeepSpawns := PeepSpawns s;
     ScenarioCategory := ScenarioCategory s; ScenarioName := ScenarioName s;
     NumGuestsInPark := NumGuestsInPark s;
     NumGuestsHeadingForPark := NumGuestsHeadingForPark s;
     NumGuestsInParkLastWeek := NumGuestsInParkLastWeek s;
     GuestChangeModifier := GuestChangeModifier s;
     GuestInitialCash := GuestInitialCash s; InitialCash := InitialCash s;
     Cash := Cash s; BankLoan := BankLoan s; MaxBankLoan := MaxBankLoan s;
     BankLoanInterestRate := BankLoanInterestRate s; Climate := Climate s;
     MapSize := MapSize s; SavedView := SavedView s;
     TileElements := TileElements s; Rides := Rides s; Banners := Banners s;
     Entities := v; StaffPatrolAreas := StaffPatrolAreas s;
     NewsItems := NewsItems s |}.

Definition set_gameState `{Facade} (v : GameState_t) (s : Machine) : Machine :=
  {| gameState := v; gScreenFlags := gScreenFlags s;
     gScreenAge := gScreenAge s; gWindowUpdateTicks := gWindowUpdateTicks s;
     ui := ui s; objects := objects s |}.

Definition set_gScreenFlags `{Facade} (v : Z) (s : Machine) : Machine :=
  {| gameState := gameState s; gScreenFlags := v;
     gScreenAge := gScreenAge s; gWindowUpdateTicks := gWindowUpdateTicks s;
     ui := ui s; objects := objects s |}.

Definition set_gScreenAge `{Facade} (v : Z) (s : Machine) : Machine :=
  {| gameState := gameState s; gScreenFlags := gScreenFlags s;
     gScreenAge := v; gWindowUpdateTicks := gWindowUpdateTicks s;
     ui := ui s; objects := objects s |}.

Definition set_gWindowUpdateTicks `{Facade} (v : Z) (s : Machine) : Machine :=
  {| gameState := gameState s; gScreenFlags := gScreenFlags s;
     gScreenAge := gScreenAge s; gWindowUpdateTicks := v; ui := ui s;
     objects := objects s |}.

Definition set_ui `{Facade} (v : Ui) (s : Machine) : Machine :=
  {| gameState := gameState s; gScreenFlags := gScreenFlags s;
     gScreenAge := gScreenAge s; gWindowUpdateTicks := gWindowUpdateTicks s;
     ui := v; objects := objects s |}.

Definition set_objects `{Facade} (v : Objects) (s : Machine) : Machine :=
  {| gameState := gameState s; gScreenFlags := gScreenFlags s;
     gScreenAge := gScreenAge s; gWindowUpdateTicks := gWindowUpdateTicks s;
     ui := ui s; objects := v |}.

Definition Park_set_Flags (v : Z) (p : Park.t) : Park.t :=
  {| Park.Flags := v; Park.EntranceFee := Park.EntranceFee p;
     Park.Size := Park.Size p; Park.Entrances := Park.Entrances p |}.

Definition Park_set_Size (v : Z) (p : Park.t) : Park.t :=
  {| Park.Flags := Park.Flags p; Park.EntranceFee := Park.EntranceFee p;
     Park.Size := v; Park.Entrances := Park.Entrances p |}.

Definition Entity_set_Name `{Facade} (v : string) (e : Entity) : Entity :=
  {| Type_ := Type_ e; Name := v; Data := Data e |}.

(** A call that works on one part of the machine. *)
Definition on_gameState `{Facade} (f : GameState_t -> GameState_t)
    (m : Machine) : Machine := set_gameState (f (gameState m)) m.
Definition on_ui `{Facade} (f : Ui -> Ui) (m : Machine) : Machine :=
  set_ui (f (ui m)) m.
Definition on_objects `{Facade} (f : Objects -> Objects) (m : Machine)
  : Machine := set_objects (f (objects m)) m.

(** ** Strings *)

(** [tolower] in the C locale. *)
Definition ascii_tolower (c : ascii) : ascii :=
  let n := N_of_ascii c in
  if ((65 <=? n) && (n <=? 90))%N then ascii_of_N (n + 32) else c.

(** Modelled from the spec: [String::IEquals] (core/String.hpp) is not
    part of the sources at hand.  It is the comparison of two strings
    without regard to the case of their letters, and its result is a
    boolean. *)
Fixpoint String_IEquals (a b : string) : bool :=
  match a, b with
  | EmptyString, EmptyString => true
  | String c a', String d b' =>
      Ascii.eqb (ascii_tolower c) (ascii_tolower d) && String_IEquals a' b'
  | _, _ => false
  end.

(** A string with its letters in lower case. *)
Fixpoint String_ToLower (a : string) : string :=
  match a with
  | EmptyString => EmptyString
  | String c a' => String (ascii_tolower c) (String_ToLower a')
  end.

(** ** The controller *)

Section Controller.
Context {H : Headers} {F : Facade} {K : @Collaborators F}.

(** The screen-flag test of [CheckObjectSelection]: an integer used as a
    [bool] is true when it is not zero. *)
Definition bool_of_Z (v : Z) : bool := negb (v =? 0).

(** Modelled from the spec: the literal suffix [_GBP] (core/Money.hpp) is
    not part of the sources at hand.  [n.00_GBP] is [n] currency units,
    and a currency unit is [MoneyPerUnit] of the units [money64]
    counts. *)
Definition GBP (n : Z) : Z := n * MoneyPerUnit.

Definition ObjectListLoad (m : Machine) : Machine :=
  let m := on_objects ObjectManager_UnloadAll m in
  let m :=
    on_objects (ObjectRepository_LoadOrConstruct (GetCurrentLanguage (ui m)))
      m in
  let m := on_objects Audio_LoadAudioObjects m in
  on_objects
    (fun o =>
       fold_left (fun o entry => ObjectManager_LoadObject entry o)
         MinimumRequiredObjects o)
    m.

Definition OpenEditorWindows (m : Machine) : Window * Machine :=
  let r := ContextOpenWindow WindowClass_MainWindow (ui m) in
  let main := fst r in
  let r := ContextOpenWindow WindowClass_TopToolbar (snd r) in
  let u := ContextOpenWindowView WV_EDITOR_BOTTOM_TOOLBAR (snd r) in
  (main, set_ui u m).

Definition FinaliseMainView (m : Machine) : Machine :=
  let m :=
    on_ui (WindowManager_SetMainView (SavedView (gameState m))) m in
  let m :=
    on_gameState
      (fun gs => set_Entities (ResetAllSpriteQuadrantPlacements (Entities gs)) gs)
      m in
  let m := on_ui ScenerySetDefaultPlacementConfiguration m in
  let m :=
    on_ui
      (WindowManager_BroadcastIntent
         (Intent_Action INTENT_ACTION_REFRESH_NEW_RIDES)) m in
  let m := set_gWindowUpdateTicks 0 m in
  let m := on_ui LoadPalette m in
  on_ui
    (WindowManager_BroadcastIntent
       (Intent_Action INTENT_ACTION_CLEAR_TILE_INSPECTOR_CLIPBOARD)) m.

Definition Load (m : Machine) : Machine :=
  let m := on_ui Audio_StopAll m in
  let m := ObjectListLoad m in
  let m := on_gameState (gameStateInitAll DEFAULT_MAP_SIZE) m in
  let m := set_gScreenFlags SCREEN_FLAGS_SCENARIO_EDITOR m in
  let m := on_gameState (set_EditorStep EditorStep.ObjectSelection) m in
  let m :=
    on_gameState
      (fun gs =>
         set_Park
           (Park_set_Flags
              (Z.lor (Park.Flags (Park gs)) PARK_FLAGS_SHOW_REAL_GUEST_NAMES)
              (Park gs))
           gs)
      m in
  let m := on_gameState (set_ScenarioCategory SCENARIO_CATEGORY_OTHER) m in
  let m := on_ui ViewportInitAll m in
  let r := OpenEditorWindows m in
  let mainWindow := fst r in
  let m := snd r in
  let m :=
    on_ui
      (Window_SetLocation
         (TileCoordsXYZ_ToCoordsXYZ
            {| tile3_x := 75; tile3_y := 75; tile3_z := 14 |})
         mainWindow)
      m in
  let m := on_ui LoadPalette m in
  let m := set_gScreenAge 0 m in
  on_gameState (set_ScenarioName (LanguageGetString STR_MY_NEW_SCENARIO)) m.

Definition ConvertSaveToScenario (m : Machine) : Machine :=
  let m := on_ui ToolCancel m in
  let intent :=
    Intent_Window WindowClass_Loadsave
      [INTENT_EXTRA_LOADSAVE_TYPE (Z.lor LOADSAVETYPE_LOAD LOADSAVETYPE_GAME);
       INTENT_EXTRA_CALLBACK Callback_ConvertSaveToScenario] in
  on_ui (ContextOpenIntent intent) m.

Definition ConvertSaveToScenarioCallback (result : Z) (path : string)
    (m : Machine) : Machine :=
  if negb (result =? MODAL_RESULT_OK) then m
  else
    let r := LoadParkFromFile path m in
    if negb (snd r) then fst r
    else
      let m := fst r in
      let m := on_gameState ScenarioReset m in
      let m := set_gScreenFlags SCREEN_FLAGS_SCENARIO_EDITOR m in
      let m :=
        on_gameState (set_EditorStep EditorStep.ObjectiveSelection) m in
      let m :=
        on_gameState (set_ScenarioCategory SCENARIO_CATEGORY_OTHER) m in
      let m := on_ui ViewportInitAll m in
      let m := snd (OpenEditorWindows m) in
      let m := FinaliseMainView m in
      set_gScreenAge 0 m.

Definition SetAllLandOwned (m : Machine) : Machine :=
  let gs := gameState m in
  let range :=
    {| range_left := 2 * COORDS_XY_STEP;
       range_top := 2 * COORDS_XY_STEP;
       range_right := (tile_x (MapSize gs) - 3) * COORDS_XY_STEP;
       range_bottom := (tile_y (MapSize gs) - 3) * COORDS_XY_STEP |} in
  let landSetRightsAction :=
    LandSetRightsAction range LandSetRightSetting_SetForSale
      GAME_COMMAND_FLAG_NO_SPEND in
  let m := on_gameState (GameActions_Execute landSetRightsAction) m in
  let landBuyRightsAction :=
    LandBuyRightsAction range LandBuyRightSetting_BuyLand
      GAME_COMMAND_FLAG_NO_SPEND in
  on_gameState (GameActions_Execute landBuyRightsAction) m.

Definition LoadTrackDesigner (m : Machine) : Machine :=
  let m := on_ui Audio_StopAll m in
  let m := set_gScreenFlags SCREEN_FLAGS_TRACK_DESIGNER m in
  let m := set_gScreenAge 0 m in
  let m := on_objects ObjectManagerUnloadAllObjects m in
  let m := ObjectListLoad m in
  let m := on_gameState (gameStateInitAll DEFAULT_MAP_SIZE) m in
  let m := SetAllLandOwned m in
  let m := on_gameState (set_EditorStep EditorStep.ObjectSelection) m in
  let m := on_ui ViewportInitAll m in
  let r := OpenEditorWindows m in
  let mainWindow := fst r in
  let m := snd r in
  let m :=
    on_ui
      (Window_SetLocation
         (TileCoordsXYZ_ToCoordsXYZ
            {| tile3_x := 75; tile3_y := 75; tile3_z := 14 |})
         mainWindow)
      m in
  on_ui LoadPalette m.

Definition LoadTrackManager (m : Machine) : Machine :=
  let m := on_ui Audio_StopAll m in
  let m := set_gScreenFlags SCREEN_FLAGS_TRACK_MANAGER m in
  let m := set_gScreenAge 0 m in
  let m := on_objects ObjectManagerUnloadAllObjects m in
  let m := ObjectListLoad m in
  let m := on_gameState (gameStateInitAll DEFAULT_MAP_SIZE) m in
  let m := SetAllLandOwned m in
  let m := on_gameState (set_EditorStep EditorStep.ObjectSelection) m in
  let m := on_ui ViewportInitAll m in
  let r := OpenEditorWindows m in
  let mainWindow := fst r in
  let m := snd r in
  let m :=
    on_ui
      (Window_SetLocation
         (TileCoordsXYZ_ToCoordsXYZ
            {| tile3_x := 75; tile3_y := 75; tile3_z := 14 |})
         mainWindow)
      m in
  on_ui LoadPalette m.

(** Modelled from the spec: [FinanceResetCashToInitial]
    (management/Finance.cpp) is not part of the sources at hand; it
    refreshes the cash-on-hand to the initial cash. *)
Definition FinanceResetCashToInitial (initialCash : Z) : Z := initialCash.

(** Modelled from the spec: [Peep::SetName] (entity/Peep.cpp) is not part
    of the sources at hand; the empty name reverts the peep to procedural
    naming. *)
Definition Peep_SetName (name : string) (e : Entity) : Entity :=
  Entity_set_Name name e.

(** [for (auto* e : EntityList<T>()) e->SetName({})]. *)
Definition ClearNames (type : EntityType) (entities : list Entity)
  : list Entity :=
  map
    (fun e =>
       match type, Type_ e with
       | Entity_Guest, Entity_Guest => Peep_SetName EmptyString e
       | Entity_Staff, Entity_Staff => Peep_SetName EmptyString e
       | _, _ => e
       end)
    entities.

(** [Park.Flags] has 64 bits and the park-flag constants are enumerators
    of a 32-bit unsigned type: in [Flags &= ~X] the complement is taken in
    32 bits and widened with zeros, so the assignment also clears the
    bits 32 to 63 of the flags. *)
Definition ClearMapForEditing (fromSave : bool) (gs : GameState_t)
  : GameState_t :=
  let tileElements := MapRemoveAllRides (TileElements gs) in
  let banners := UnlinkAllRideBanners (Banners gs) in
  let rides := RideInitAll (Rides gs) in
  let entities := ClearNames Entity_Guest (Entities gs) in
  let entities := ClearNames Entity_Staff entities in
  let entities := ResetAllEntities entities in
  let patrolAreas :=
    UpdateConsolidatedPatrolAreas entities (StaffPatrolAreas gs) in
  let numGuestsInPark := 0 in
  let numGuestsHeadingForPark := 0 in
  let numGuestsInParkLastWeek := 0 in
  let guestChangeModifier := 0 in
  let park := Park gs in
  let park :=
    if fromSave then
      let flags := Z.lor (Park.Flags park) PARK_FLAGS_NO_MONEY in
      let flags :=
        if Park.EntranceFee park =? 0
        then Z.lor flags PARK_FLAGS_PARK_FREE_ENTRY
        else Z.land flags (uint32_not PARK_FLAGS_PARK_FREE_ENTRY) in
      let flags :=
        Z.land flags (uint32_not PARK_FLAGS_SPRITES_INITIALISED) in
      Park_set_Flags flags park
    else park in
  let guestInitialCash :=
    if fromSave
    then clamp (GuestInitialCash gs) (GBP 10) MAX_ENTRANCE_FEE
    else GuestInitialCash gs in
  let initialCash :=
    if fromSave then Z.min (InitialCash gs) 100000 else InitialCash gs in
  let cash :=
    if fromSave then FinanceResetCashToInitial initialCash
    else Cash gs in
  let bankLoan :=
    if fromSave then clamp (BankLoan gs) (GBP 0) (GBP 5000000)
    else BankLoan gs in
  let maxBankLoan :=
    if fromSave then clamp (MaxBankLoan gs) (GBP 0) (GBP 5000000)
    else MaxBankLoan gs in
  let bankLoanInterestRate :=
    if fromSave
    then clamp (BankLoanInterestRate gs) 5 MaxBankLoanInterestRate
    else BankLoanInterestRate gs in
  let climate := ClimateReset (Climate gs) in
  let newsItems := News_InitQueue (NewsItems gs) in
  {| EditorStep := EditorStep gs;
     Park := park;
     PeepSpawns := PeepSpawns gs;
     ScenarioCategory := ScenarioCategory gs;
     ScenarioName := ScenarioName gs;
     NumGuestsInPark := numGuestsInPark;
     NumGuestsHeadingForPark := numGuestsHeadingForPark;
     NumGuestsInParkLastWeek := numGuestsInParkLastWeek;
     GuestChangeModifier := guestChangeModifier;
     GuestInitialCash := guestInitialCash;
     InitialCash := initialCash;
     Cash := cash;
     BankLoan := bankLoan;
     MaxBankLoan := maxBankLoan;
     BankLoanInterestRate := bankLoanInterestRate;
     Climate := climate;
     MapSize := MapSize gs;
     SavedView := SavedView gs;
     TileElements := tileElements;
     Rides := rides;
     Banners := banners;
     Entities := entities;
     StaffPatrolAreas := patrolAreas;
     NewsItems := newsItems |}.

Definition AfterLoadCleanup (loadedFromSave : bool) (m : Machine)
  : Machine :=
  let m := on_gameState (ClearMapForEditing loadedFromSave) m in
  let m := on_gameState (set_EditorStep EditorStep.LandscapeEditor) m in
  let m := set_gScreenAge 0 m in
  let m := set_gScreenFlags SCREEN_FLAGS_SCENARIO_EDITOR m in
  let m := on_ui ViewportInitAll m in
  let m := snd (OpenEditorWindows m) in
  FinaliseMainView m.

(** The value of the local [loadedFromSave] of [ReadS4OrS6] when the
    clean-up is called.  In the third disjunct [==] binds tighter than
    [||]: the [bool] that [IEquals] returns is compared with [0]. *)
Definition ReadS4OrS6_loadedFromSave (extension : string) : bool :=
  let loadedFromSave := false in
  if String_IEquals extension ".sv4"
     || String_IEquals extension ".sv6"
     || (Z.b2z (String_IEquals extension ".sv7") =? 0)
  then true
  else loadedFromSave.

Definition ReadS4OrS6 (path : string) (m : Machine) : bool * Machine :=
  let extension := Path_GetExtension path in
  let r := LoadParkFromFile path m in
  let loadSuccess := snd r in
  if negb loadSuccess then (false, fst r)
  else
    let loadedFromSave := ReadS4OrS6_loadedFromSave extension in
    (true, AfterLoadCleanup loadedFromSave (fst r)).

(** The [try] block of [ReadPark]: a call that throws ends the function
    with [false] and the state reached so far.  [AfterLoadCleanup] is
    inside the block as well: when a call in it throws, the function
    returns [false] with the machine that the exception leaves. *)
Definition ReadPark (path : string) (m : Machine) : bool * Machine :=
  let importer := ParkImporter_CreateParkFile (objects m) in
  match Importer_Load path importer with
  | None => (false, m)
  | Some (importer, loadResult) =>
      let r := ObjectManager_LoadObjects (RequiredObjects loadResult)
                 (objects m) in
      let m := set_objects (fst r) m in
      if negb (snd r) then (false, m)
      else
        let r := Importer_Import importer (gameState m) in
        let m := set_gameState (fst r) m in
        if negb (snd r) then (false, m)
        else
          match AfterLoadCleanup_exception m with
          | Some thrown => (false, thrown)
          | None => (true, AfterLoadCleanup true m)
          end
  end.

Definition LoadLandscape (path : string) (m : Machine) : bool * Machine :=
  let m := on_ui WindowCloseAll m in
  let extension := GetFileExtensionType path in
  match extension with
  | FileExtension_SC6 | FileExtension_SV6
  | FileExtension_SC4 | FileExtension_SV4 => ReadS4OrS6 path m
  | FileExtension_PARK => ReadPark path m
  | _ => (false, m)
  end.

(** *** The validators *)

(** [CheckObjectSelection]; [Some] is a [return] inside one of the two
    blocks guarded by [!isTrackDesignerManager]. *)
Definition CheckObjectSelection (m : Machine) : ObjectType.t * StringId :=
  let isTrackDesignerManager :=
    bool_of_Z
      (Z.land (gScreenFlags m)
         (Z.lor SCREEN_FLAGS_TRACK_DESIGNER SCREEN_FLAGS_TRACK_MANAGER)) in
  let o := objects m in
  let footpaths :=
    if negb isTrackDesignerManager then
      if negb (EditorCheckObjectGroupAtLeastOneSurfaceSelected false o)
      then Some (ObjectType.FootpathSurface,
                 STR_AT_LEAST_ONE_FOOTPATH_NON_QUEUE_SURFACE_OBJECT_MUST_BE_SELECTED)
      else if negb (EditorCheckObjectGroupAtLeastOneSurfaceSelected true o)
      then Some (ObjectType.FootpathSurface,
                 STR_AT_LEAST_ONE_FOOTPATH_QUEUE_SURFACE_OBJECT_MUST_BE_SELECTED)
      else if negb (EditorCheckObjectGroupAtLeastOneSelected
                      ObjectType.FootpathRailings o)
      then Some (ObjectType.FootpathRailings,
                 STR_AT_LEAST_ONE_FOOTPATH_RAILING_OBJECT_MUST_BE_SELECTED)
      else None
    else None in
  match footpaths with
  | Some failure => failure
  | None =>
      if negb (EditorCheckObjectGroupAtLeastOneSelected ObjectType.Ride o)
      then (ObjectType.Ride, STR_AT_LEAST_ONE_RIDE_OBJECT_MUST_BE_SELECTED)
      else if negb (EditorCheckObjectGroupAtLeastOneSelected
                      ObjectType.Station o)
      then (ObjectType.Station,
            STR_AT_LEAST_ONE_STATION_OBJECT_MUST_BE_SELECTED)
      else if negb (EditorCheckObjectGroupAtLeastOneSelected
                      ObjectType.TerrainSurface o)
      then (ObjectType.TerrainSurface,
            STR_AT_LEAST_ONE_TERRAIN_SURFACE_OBJECT_MUST_BE_SELECTED)
      else if negb (EditorCheckObjectGroupAtLeastOneSelected
                      ObjectType.TerrainEdge o)
      then (ObjectType.TerrainEdge,
            STR_AT_LEAST_ONE_TERRAIN_EDGE_OBJECT_MUST_BE_SELECTED)
      else
        let parkAndWater :=
          if negb isTrackDesignerManager then
            if negb (EditorCheckObjectGroupAtLeastOneSelected
                       ObjectType.ParkEntrance o)
            then Some (ObjectType.ParkEntrance,
                       STR_PARK_ENTRANCE_TYPE_MUST_BE_SELECTED)
            else if negb (EditorCheckObjectGroupAtLeastOneSelected
                            ObjectType.Water o)
            then Some (ObjectType.Water, STR_WATER_TYPE_MUST_BE_SELECTED)
            else None
          else None in
        match parkAndWater with
        | Some failure => failure
        | None => (ObjectType.None, STR_NONE)
        end
  end.

(** Modelled from the spec: [Park::UpdateSize] (world/Park.cpp) is not
    part of the sources at hand.  It recomputes the owned-land size of
    the park, stores it in the park-size cache and returns it. *)
Definition Park_UpdateSize (gs : GameState_t) : Z * GameState_t :=
  let tiles := CalculateParkSize (TileElements gs) in
  (tiles, set_Park (Park_set_Size tiles (Park gs)) gs).

(** The loop of [CheckPark] over the park entrances; [Some] is an early
    return with its message.  The footpath search works on the tile
    elements and is handed the entrance by reference. *)
Fixpoint CheckPark_entrances (entrances : list CoordsXYZD.t)
    (tiles : TileMap) : option StringId * TileMap :=
  match entrances with
  | [] => (None, tiles)
  | parkEntrance :: rest =>
      let direction :=
        DirectionReverse (CoordsXYZD.direction parkEntrance) in
      let r := FootpathIsConnectedToMapEdge parkEntrance direction 0 tiles in
      match fst r with
      | FOOTPATH_SEARCH_NOT_FOUND =>
          (Some STR_PARK_ENTRANCE_WRONG_DIRECTION_OR_NO_PATH, snd r)
      | FOOTPATH_SEARCH_INCOMPLETE
      | FOOTPATH_SEARCH_TOO_COMPLEX =>
          (Some STR_PARK_ENTRANCE_PATH_INCOMPLETE_OR_COMPLEX, snd r)
      | FOOTPATH_SEARCH_SUCCESS =>
          let r :=
            FootpathIsConnectedToMapEdge parkEntrance direction
              (Z.shiftl 1 5) (snd r) in
          CheckPark_entrances rest (snd r)
      end
  end.

Definition CheckPark (gs : GameState_t) : (bool * StringId) * GameState_t :=
  let r := Park_UpdateSize gs in
  let parkSize := fst r in
  let gs := snd r in
  if parkSize =? 0 then ((false, STR_PARK_MUST_OWN_SOME_LAND), gs)
  else if bool_decide (Park.Entrances (Park gs) = [])
  then ((false, STR_NO_PARK_ENTRANCES), gs)
  else
    let r := CheckPark_entrances (Park.Entrances (Park gs))
               (TileElements gs) in
    let gs := set_TileElements (snd r) gs in
    match fst r with
    | Some message => ((false, message), gs)
    | None =>
        if bool_decide (PeepSpawns gs = [])
        then ((false, STR_PEEP_SPAWNS_NOT_SET), gs)
        else ((true, STR_NONE), gs)
    end.


(** *** The validators as the specification words them *)

(** A rule of the object-group validator: whether it applies in the
    current mode, whether it is satisfied, and what it reports. *)
Record Rule : Set := {
  applies : bool;
  satisfied : bool;
  report : ObjectType.t * StringId
}.

Definition violated (r : Rule) : bool := applies r && negb (satisfied r).

(** The editor is in track-designer or track-manager mode. *)
Definition TrackDesignerOrManager (m : Machine) : bool :=
  bool_of_Z
    (Z.land (gScreenFlags m)
       (Z.lor SCREEN_FLAGS_TRACK_DESIGNER SCREEN_FLAGS_TRACK_MANAGER)).

(** The nine rules in the order in which the specification lists them. *)
Definition SelectionRules (m : Machine) : list Rule :=
  let park := negb (TrackDesignerOrManager m) in
  let one := fun k => EditorCheckObjectGroupAtLeastOneSelected k (objects m) in
  let surface := fun queue =>
    EditorCheckObjectGroupAtLeastOneSurfaceSelected queue (objects m) in
  [ Build_Rule park (surface false)
      (ObjectType.FootpathSurface,
       STR_AT_LEAST_ONE_FOOTPATH_NON_QUEUE_SURFACE_OBJECT_MUST_BE_SELECTED);
    Build_Rule park (surface true)
      (ObjectType.FootpathSurface,
       STR_AT_LEAST_ONE_FOOTPATH_QUEUE_SURFACE_OBJECT_MUST_BE_SELECTED);
    Build_Rule park (one ObjectType.FootpathRailings)
      (ObjectType.FootpathRailings,
       STR_AT_LEAST_ONE_FOOTPATH_RAILING_OBJECT_MUST_BE_SELECTED);
    Build_Rule true (one ObjectType.Ride)
      (ObjectType.Ride, STR_AT_LEAST_ONE_RIDE_OBJECT_MUST_BE_SELECTED);
    Build_Rule true (one ObjectType.Station)
      (ObjectType.Station, STR_AT_LEAST_ONE_STATION_OBJECT_MUST_BE_SELECTED);
    Build_Rule true (one ObjectType.TerrainSurface)
      (ObjectType.TerrainSurface,
       STR_AT_LEAST_ONE_TERRAIN_SURFACE_OBJECT_MUST_BE_SELECTED);
    Build_Rule true (one ObjectType.TerrainEdge)
      (ObjectType.TerrainEdge,
       STR_AT_LEAST_ONE_TERRAIN_EDGE_OBJECT_MUST_BE_SELECTED);
    Build_Rule park (one ObjectType.ParkEntrance)
      (ObjectType.ParkEntrance, STR_PARK_ENTRANCE_TYPE_MUST_BE_SELECTED);
    Build_Rule park (one ObjectType.Water)
      (ObjectType.Water, STR_WATER_TYPE_MUST_BE_SELECTED) ].

(** First failure wins. *)
Fixpoint FirstFailure (rules : list Rule) : ObjectType.t * StringId :=
  match rules with
  | [] => (ObjectType.None, STR_NONE)
  | r :: rest => if violated r then report r else FirstFailure rest
  end.

(** The replies the park validator gets, entrance by entrance: each
    search starts in the reverse of the entrance's direction, and after a
    [Success] the search is run again with the flag that takes the tiles
    of the route out of the park's ownership. *)
Fixpoint EntranceSearches (entrances : list CoordsXYZD.t) (tiles : TileMap)
  : list FootpathSearchResult :=
  match entrances with
  | [] => []
  | e :: rest =>
      let d := DirectionReverse (CoordsXYZD.direction e) in
      let r := FootpathIsConnectedToMapEdge e d 0 tiles in
      let tiles :=
        match fst r with
        | FOOTPATH_SEARCH_SUCCESS =>
            snd (FootpathIsConnectedToMapEdge e d (Z.shiftl 1 5) (snd r))
        | _ => snd r
        end in
      fst r :: EntranceSearches rest tiles
  end.

(** The tiles after the routes of the given entrances were searched and
    taken out of ownership. *)
Fixpoint UnownRoutes (entrances : list CoordsXYZD.t) (tiles : TileMap)
  : TileMap :=
  match entrances with
  | [] => tiles
  | e :: rest =>
      let d := DirectionReverse (CoordsXYZD.direction e) in
      let r := FootpathIsConnectedToMapEdge e d 0 tiles in
      UnownRoutes rest
        (snd (FootpathIsConnectedToMapEdge e d (Z.shiftl 1 5) (snd r)))
  end.

Definition SearchMessage (r : FootpathSearchResult) : StringId :=
  match r with
  | FOOTPATH_SEARCH_NOT_FOUND => STR_PARK_ENTRANCE_WRONG_DIRECTION_OR_NO_PATH
  | FOOTPATH_SEARCH_INCOMPLETE
  | FOOTPATH_SEARCH_TOO_COMPLEX => STR_PARK_ENTRANCE_PATH_INCOMPLETE_OR_COMPLEX
  | FOOTPATH_SEARCH_SUCCESS => STR_NONE
  end.

Definition is_success (r : FootpathSearchResult) : bool :=
  bool_decide (r = FOOTPATH_SEARCH_SUCCESS).

(** The five steps of the park validator of the specification. *)
Definition CheckPark_spec (gs : GameState_t) : bool * StringId :=
  if CalculateParkSize (TileElements gs) =? 0
  then (false, STR_PARK_MUST_OWN_SOME_LAND)
  else
    match Park.Entrances (Park gs) with
    | [] => (false, STR_NO_PARK_ENTRANCES)
    | entrances =>
        match
          find (fun r => negb (is_success r))
            (EntranceSearches entrances (TileElements gs))
        with
        | Some r => (false, SearchMessage r)
        | None =>
            match PeepSpawns gs with
            | [] => (false, STR_PEEP_SPAWNS_NOT_SET)
            | _ => (true, STR_NONE)
            end
        end
    end.

(** Every reply is [Success]. *)
Definition all_success (rs : list FootpathSearchResult) : Prop :=
  Forall (fun r => r = FOOTPATH_SEARCH_SUCCESS) rs.

(** Where the loop stops and what it leaves of the tiles. *)
Definition loop_outcome (entrances : list CoordsXYZD.t) (tiles : TileMap)
    (message : option StringId) (final : TileMap) : Prop :=
  exists examined rest,
    entrances = examined ++ rest
    /\ all_success (EntranceSearches examined tiles)
    /\ match rest with
       | [] => message = None /\ final = UnownRoutes examined tiles
       | bad :: _ =>
           let r :=
             FootpathIsConnectedToMapEdge bad
               (DirectionReverse (CoordsXYZD.direction bad)) 0
               (UnownRoutes examined tiles) in
           fst r <> FOOTPATH_SEARCH_SUCCESS
           /\ message = Some (SearchMessage (fst r))
           /\ final = snd r
       end.

(** What the specification asks of the collaborators and constants that
    the clean-up relies on. *)
Record CleanupContract : Prop := {
  money_unit_positive : 1 <= MoneyPerUnit;
  guest_cash_bounds_ordered : GBP 10 <= MAX_ENTRANCE_FEE;
  interest_bounds_ordered : 5 <= MaxBankLoanInterestRate;
  MapRemoveAllRides_removes :
    forall tiles, MapHasRides (MapRemoveAllRides tiles) = false;
  RideInitAll_empties :
    forall rides, RideCount (RideInitAll rides) = 0%nat
}.


End Controller.

(** ** A small park to run the definitions on *)

Module Demo.

#[local] Instance limits : ObjectLimits := {|
  OBJECT_ENTRY_INDEX_NULL := N.to_nat 65535;
  EnumValue := fun k =>
    match k with
    | ObjectType.Ride => 0 | ObjectType.Paths => 5
    | ObjectType.ParkEntrance => 8 | ObjectType.Water => 9
    | ObjectType.TerrainSurface => 11 | ObjectType.TerrainEdge => 12
    | ObjectType.Station => 13 | ObjectType.Music => 14
    | ObjectType.FootpathSurface => 15 | ObjectType.FootpathRailings => 16
    | ObjectType.Scenery => 7 | ObjectType.None => 255
    end;
  object_entry_group_counts := fun _ => 255
|}.

#[local] Instance headers : Headers := {|
  SCREEN_FLAGS_SCENARIO_EDITOR := 2;
  SCREEN_FLAGS_TRACK_DESIGNER := 4;
  SCREEN_FLAGS_TRACK_MANAGER := 8;
  MODAL_RESULT_OK := 1;
  DEFAULT_MAP_SIZE := {| tile_x := 150; tile_y := 150 |};
  COORDS_XY_STEP := 32;
  PARK_FLAGS_SHOW_REAL_GUEST_NAMES := 2 ^ 9;
  PARK_FLAGS_NO_MONEY := 2 ^ 11;
  PARK_FLAGS_PARK_FREE_ENTRY := 2 ^ 13;
  PARK_FLAGS_SPRITES_INITIALISED := 2 ^ 18;
  SCENARIO_CATEGORY_OTHER := 4;
  MAX_ENTRANCE_FEE := 9990;
  MaxBankLoanInterestRate := 255;
  MoneyPerUnit := 10;
  GAME_COMMAND_FLAG_NO_SPEND := 2 ^ 5;
  LOADSAVETYPE_LOAD := 0;
  LOADSAVETYPE_GAME := 0;
  WV_EDITOR_BOTTOM_TOOLBAR := 2
|}.

(** Owned tiles and the number of ride elements on the map. *)
Record Tiles : Set := { owned : list (Z * Z); rideElements : nat }.

(** The kinds with a selected object, and whether a non-queue and a
    queue footpath surface are selected. *)
Record Selection : Set := {
  selectedKinds : list ObjectType.t;
  nonQueueSurface : bool;
  queueSurface : bool
}.

#[local] Instance facade : Facade := {|
  TileMap := Tiles;
  RideRegistry := list nat;
  BannerList := unit;
  EntityData := unit;
  PatrolAreas := unit;
  ClimateState := nat;
  NewsQueue := list nat;
  ViewState := unit;
  Ui := list WindowClass;
  Window := WindowClass;
  WorldCoords := TileCoordsXYZ;
  Objects := Selection;
  ObjectEntry := ObjectType.t;
  Importer := unit;
  LoadResult := unit;
  Language := unit
|}.

(** The reply of the search is written in the height of the entrance;
    with bit 5 of the flags a successful search gives up the tile of the
    entrance. *)
Definition search (e : CoordsXYZD.t) (d flags : Z) (tiles : Tiles)
  : FootpathSearchResult * Tiles :=
  let reply :=
    if CoordsXYZD.z e =? 0 then FOOTPATH_SEARCH_SUCCESS
    else if CoordsXYZD.z e =? 1 then FOOTPATH_SEARCH_NOT_FOUND
    else if CoordsXYZD.z e =? 2 then FOOTPATH_SEARCH_INCOMPLETE
    else FOOTPATH_SEARCH_TOO_COMPLEX in
  if Z.testbit flags 5 && bool_decide (reply = FOOTPATH_SEARCH_SUCCESS)
  then
    (reply,
     {| owned :=
          filter
            (fun t => t <> (CoordsXYZD.x e, CoordsXYZD.y e)) (owned tiles);
        rideElements := rideElements tiles |})
  else (reply, tiles).

(** The extension of a path: its last four characters. *)
Definition extension_of (path : string) : string :=
  substring (String.length path - 4) 4 path.

Definition extension_type (path : string) : FileExtension :=
  let e := extension_of path in
  if String_IEquals e ".sc4" then FileExtension_SC4
  else if String_IEquals e ".sv4" then FileExtension_SV4
  else if String_IEquals e ".sc6" then FileExtension_SC6
  else if String_IEquals e ".sv6" then FileExtension_SV6
  else if String_IEquals e "park" then FileExtension_PARK
  else FileExtension_Unknown.

(** A file loads unless its name is empty; the world stays as it is. *)
Definition load (path : string) (m : @Machine facade)
  : @Machine facade * bool :=
  (m, negb (String.eqb path EmptyString)).

#[local] Instance collaborators : @Collaborators facade := {|
  Audio_StopAll := fun u => u;
  Audio_LoadAudioObjects := fun o => o;
  ObjectManager_UnloadAll := fun o => o;
  ObjectManagerUnloadAllObjects := fun o => o;
  ObjectRepository_LoadOrConstruct := fun _ o => o;
  GetCurrentLanguage := fun _ => tt;
  MinimumRequiredObjects :=
    [ObjectType.TerrainSurface; ObjectType.TerrainEdge];
  ObjectManager_LoadObject := fun _ o => o;
  ObjectManager_LoadObjects := fun _ o => (o, true);
  gameStateInitAll := fun _ gs => gs;
  ScenarioReset := fun gs => gs;
  GameActions_Execute := fun _ gs => gs;
  ViewportInitAll := fun u => u;
  ContextOpenWindow := fun w u => (w, w :: u);
  ContextOpenWindowView := fun _ u => u;
  TileCoordsXYZ_ToCoordsXYZ := fun c => c;
  Window_SetLocation := fun _ _ u => u;
  LoadPalette := fun u => u;
  LanguageGetString := fun _ => "My new scenario"%string;
  ToolCancel := fun u => u;
  ContextOpenIntent := fun _ u => WindowClass_Loadsave :: u;
  WindowCloseAll := fun _ => [];
  WindowManager_SetMainView := fun _ u => u;
  WindowManager_BroadcastIntent := fun _ u => u;
  ResetAllSpriteQuadrantPlacements := fun es => es;
  ScenerySetDefaultPlacementConfiguration := fun u => u;
  LoadParkFromFile := load;
  GetFileExtensionType := extension_type;
  Path_GetExtension := extension_of;
  ParkImporter_CreateParkFile := fun _ => tt;
  Importer_Load := fun path i =>
    if String.eqb path EmptyString then None else Some (i, tt);
  RequiredObjects := fun _ => [];
  Importer_Import := fun _ gs => (gs, true);
  AfterLoadCleanup_exception := fun _ => None;
  MapRemoveAllRides := fun t =>
    {| owned := owned t; rideElements := 0 |};
  UnlinkAllRideBanners := fun b => b;
  RideInitAll := fun _ => [];
  ResetAllEntities := fun _ => [];
  UpdateConsolidatedPatrolAreas := fun _ p => p;
  ClimateReset := fun _ => 0%nat;
  News_InitQueue := fun _ => [];
  CalculateParkSize := fun t => Z.of_nat (length (owned t));
  DirectionReverse := fun d => Z.lxor d 2;
  FootpathIsConnectedToMapEdge := search;
  EditorCheckObjectGroupAtLeastOneSurfaceSelected := fun queue o =>
    if queue then queueSurface o else nonQueueSurface o;
  EditorCheckObjectGroupAtLeastOneSelected := fun k o =>
    bool_decide (k ∈ selectedKinds o);
  MapHasRides := fun t => (0 <? rideElements t)%nat;
  RideCount := fun r => length r
|}.

Definition entrance (x y z d : Z) : CoordsXYZD.t :=
  {| CoordsXYZD.x := x; CoordsXYZD.y := y; CoordsXYZD.z := z;
     CoordsXYZD.direction := d |}.

(** A saved park: two entrances, the first with a path to the edge, the
    second without; finances beyond the ranges of the editor. *)
Definition park : @GameState_t facade := {|
  EditorStep := EditorStep.Invalid;
  Park := {| Park.Flags := 2 ^ 13; Park.EntranceFee := 100;
             Park.Size := 0;
             Park.Entrances := [entrance 3 3 0 1; entrance 9 9 1 0] |};
  PeepSpawns := [entrance 0 5 0 0];
  ScenarioCategory := 0;
  ScenarioName := "Forest Frontiers";
  NumGuestsInPark := 120;
  NumGuestsHeadingForPark := 7;
  NumGuestsInParkLastWeek := 90;
  GuestChangeModifier := 3;
  GuestInitialCash := 20;
  InitialCash := 250000;
  Cash := 4321;
  BankLoan := 100000000;
  MaxBankLoan := -5;
  BankLoanInterestRate := 2;
  Climate := 3%nat;
  MapSize := {| tile_x := 150; tile_y := 150 |};
  SavedView := tt;
  TileElements := {| owned := [(3, 3); (4, 4)]; rideElements := 6 |};
  Rides := [0; 1; 2]%nat;
  Banners := tt;
  Entities :=
    [ {| Type_ := Entity_Guest; Name := "Ada"; Data := tt |};
      {| Type_ := Entity_Staff; Name := "Handyman 1"; Data := tt |} ];
  StaffPatrolAreas := tt;
  NewsItems := [1%nat]
|}.

(** The same park with the first entrance only. *)
Definition connected_park : @GameState_t facade :=
  set_Park
    {| Park.Flags := 2 ^ 13; Park.EntranceFee := 100; Park.Size := 0;
       Park.Entrances := [entrance 3 3 0 1] |}
    park.

(** The same park with bit 40 of the 64-bit flags set as well. *)
Definition high_flag_park : @GameState_t facade :=
  set_Park
    {| Park.Flags := 2 ^ 40 + 2 ^ 13; Park.EntranceFee := 100;
       Park.Size := 0;
       Park.Entrances := [entrance 3 3 0 1; entrance 9 9 1 0] |}
    park.

Definition machine : @Machine facade := {|
  gameState := park;
  gScreenFlags := 0;
  gScreenAge := 77;
  gWindowUpdateTicks := 5;
  ui := [];
  objects := {| selectedKinds := []; nonQueueSurface := false;
                queueSurface := false |}
|}.

(** A store with two flag bytes for rides. *)
Definition store : FlagStore :=
  <[ObjectType.Ride := [x05; xff]]> FlagStore_fresh.

(** The controller on the demo collaborators. *)
Definition CheckObjectSelection :=
  CheckObjectSelection (H := headers) (K := collaborators).
Definition CheckPark := CheckPark (K := collaborators).
Definition ClearMapForEditing :=
  ClearMapForEditing (H := headers) (K := collaborators).

Definition MapHasRides := MapHasRides (Collaborators := collaborators).

(** The owned tiles that [CheckPark] leaves on the demo park. *)
Definition owned_tiles_after_failure : list (Z * Z) :=
  owned (TileElements (snd (CheckPark park))).
Definition ConvertSaveToScenarioCallback :=
  ConvertSaveToScenarioCallback (H := headers) (K := collaborators).
Definition LoadLandscape := LoadLandscape (H := headers) (K := collaborators).
Definition ReadS4OrS6 := ReadS4OrS6 (H := headers) (K := collaborators).
Definition Load := Load (H := headers) (K := collaborators).

End Demo.

(** ** The windows of the editor steps *)

(** The window classes that [OpenWindowsForCurrentStep] looks for and
    opens. *)
Inductive EditorWindowClass : Set :=
| WindowClass_EditorObjectSelection
| WindowClass_InstallTrack
| WindowClass_EditorInventionList
| WindowClass_EditorScenarioOptions
| WindowClass_EditorObjectiveOptions.

#[global] Instance EditorWindowClass_eq_dec : EqDecision EditorWindowClass.
Proof. solve_decision. Defined.

(** What [OpenWindowsForCurrentStep] uses of the window manager, with the
    screen-flag mask of the editor modes.  A step window runs code of its
    own when it opens (the object-selection window loads objects), so
    opening one is handed the whole machine. *)
Class StepWindows `{Facade} := {
  SCREEN_FLAGS_EDITOR : Z;
  WindowFindByClass : EditorWindowClass -> Ui -> option Window;
  ContextOpenStepWindow : EditorWindowClass -> Machine -> Machine
}.

Section StepWindowsController.
Context {H : Headers} {F : Facade} {K : @Collaborators F}
  {W : @StepWindows F}.

(** [WindowFindByClass(c) != nullptr]. *)
Definition window_found (c : EditorWindowClass) (m : Machine) : bool :=
  match WindowFindByClass c (ui m) with
  | Some _ => true
  | None => false
  end.

Definition OpenWindowsForCurrentStep (m : Machine) : Machine :=
  if negb (bool_of_Z (Z.land (gScreenFlags m) SCREEN_FLAGS_EDITOR)) then m
  else
    match EditorStep (gameState m) with
    | EditorStep.ObjectSelection =>
        if window_found WindowClass_EditorObjectSelection m then m
        else if window_found WindowClass_InstallTrack m then m
        else
          let m :=
            if bool_of_Z (Z.land (gScreenFlags m) SCREEN_FLAGS_TRACK_MANAGER)
            then on_objects ObjectManagerUnloadAllObjects m
            else m in
          ContextOpenStepWindow WindowClass_EditorObjectSelection m
    | EditorStep.InventionsListSetUp =>
        if window_found WindowClass_EditorInventionList m then m
        else ContextOpenStepWindow WindowClass_EditorInventionList m
    | EditorStep.OptionsSelection =>
        if window_found WindowClass_EditorScenarioOptions m then m
        else ContextOpenStepWindow WindowClass_EditorScenarioOptions m
    | EditorStep.ObjectiveSelection =>
        if window_found WindowClass_EditorObjectiveOptions m then m
        else ContextOpenStepWindow WindowClass_EditorObjectiveOptions m
    | EditorStep.LandscapeEditor
    | EditorStep.SaveScenario
    | EditorStep.RollercoasterDesigner
    | EditorStep.DesignsManager
    | EditorStep.Invalid => m
    end.

Definition EditorOpenWindowsForCurrentStep (m : Machine) : Machine :=
  OpenWindowsForCurrentStep m.

(** The window that belongs to a step, for the four steps that have
    one. *)
Definition StepWindow (step : EditorStep.t) : option EditorWindowClass :=
  match step with
  | EditorStep.ObjectSelection => Some WindowClass_EditorObjectSelection
  | EditorStep.InventionsListSetUp => Some WindowClass_EditorInventionList
  | EditorStep.OptionsSelection => Some WindowClass_EditorScenarioOptions
  | EditorStep.ObjectiveSelection => Some WindowClass_EditorObjectiveOptions
  | _ => None
  end.

(** What a window manager does when it opens a step window: the window
    can be found afterwards, and the step and the screen flags stay. *)
Record StepWindowContract : Prop := {
  opened_window_is_found :
    forall c m, window_found c (ContextOpenStepWindow c m) = true;
  opening_keeps_step :
    forall c m,
      EditorStep (gameState (ContextOpenStepWindow c m))
      = EditorStep (gameState m);
  opening_keeps_screen_flags :
    forall c m, gScreenFlags (ContextOpenStepWindow c m) = gScreenFlags m
}.

End StepWindowsController.

(** ** Notions for the further properties *)

(** The flag store after [if (list.size() <= index) list.resize(index + 1);
    list[index] = g(list[index])] on the vector of [objectType]. *)
Definition touch (g : byte -> byte) (objectType : ObjectType.t) (index : nat)
    (st : FlagStore) : FlagStore :=
  <[objectType := alter g index (grown (st objectType) index)]> st.

Section FurtherNotions.
Context {H : Headers} {F : Facade} {K : @Collaborators F}.

(** The rectangle that [SetAllLandOwned] hands to both of its actions. *)
Definition SetAllLandOwned_range (gs : GameState_t) : MapRange :=
  {| range_left := 2 * COORDS_XY_STEP;
     range_top := 2 * COORDS_XY_STEP;
     range_right := (tile_x (MapSize gs) - 3) * COORDS_XY_STEP;
     range_bottom := (tile_y (MapSize gs) - 3) * COORDS_XY_STEP |}.

(** A guest or a member of staff. *)
Definition is_peep (e : Entity) : bool :=
  match Type_ e with
  | Entity_Guest | Entity_Staff => true
  | Entity_Other => false
  end.

(** The six finance fields of the game state. *)
Definition Finances (gs : GameState_t) : Z * Z * Z * Z * Z * Z :=
  (GuestInitialCash gs, InitialCash gs, Cash gs, BankLoan gs,
   MaxBankLoan gs, BankLoanInterestRate gs).

(** The four guest counters of the game state. *)
Definition GuestCounters (gs : GameState_t) : Z * Z * Z * Z :=
  (NumGuestsInPark gs, NumGuestsHeadingForPark gs,
   NumGuestsInParkLastWeek gs, GuestChangeModifier gs).

(** The bounds of the three clamps of [ClearMapForEditing] are in order. *)
Definition ClampBoundsOrdered : Prop :=
  GBP 10 <= MAX_ENTRANCE_FEE
  /\ GBP 0 <= GBP 5000000
  /\ 5 <= MaxBankLoanInterestRate.

(** The three park flags that [ClearMapForEditing] writes share no bit. *)
Definition ParkFlagsDisjoint : Prop :=
  Z.land PARK_FLAGS_NO_MONEY PARK_FLAGS_PARK_FREE_ENTRY = 0
  /\ Z.land PARK_FLAGS_NO_MONEY PARK_FLAGS_SPRITES_INITIALISED = 0
  /\ Z.land PARK_FLAGS_PARK_FREE_ENTRY PARK_FLAGS_SPRITES_INITIALISED = 0.

(** The three park flags are values of 32 bits. *)
Definition ParkFlagsIn32Bits : Prop :=
  0 <= PARK_FLAGS_NO_MONEY < 2 ^ 32
  /\ 0 <= PARK_FLAGS_PARK_FREE_ENTRY < 2 ^ 32
  /\ 0 <= PARK_FLAGS_SPRITES_INITIALISED < 2 ^ 32.

(** The extension types that [LoadLandscape] hands to a reader. *)
Definition is_landscape_extension (e : FileExtension) : bool :=
  match e with
  | FileExtension_SC6 | FileExtension_SV6
  | FileExtension_SC4 | FileExtension_SV4
  | FileExtension_PARK => true
  | _ => false
  end.

End FurtherNotions.

(** A second small world, whose user interface is the list of the open
    step windows and whose other parts are empty. *)
Module DemoWindows.

#[local] Instance facade : Facade := {|
  TileMap := unit;
  RideRegistry := unit;
  BannerList := unit;
  EntityData := unit;
  PatrolAreas := unit;
  ClimateState := unit;
  NewsQueue := unit;
  ViewState := unit;
  Ui := list EditorWindowClass;
  Window := EditorWindowClass;
  WorldCoords := unit;
  Objects := nat;
  ObjectEntry := unit;
  Importer := unit;
  LoadResult := unit;
  Language := unit
|}.

(** The objects are the number of loaded objects; unloading leaves none. *)
#[local] Instance collaborators : @Collaborators facade := {|
  Audio_StopAll := fun u => u;
  Audio_LoadAudioObjects := fun o => o;
  ObjectManager_UnloadAll := fun _ => 0%nat;
  ObjectManagerUnloadAllObjects := fun _ => 0%nat;
  ObjectRepository_LoadOrConstruct := fun _ o => o;
  GetCurrentLanguage := fun _ => tt;
  MinimumRequiredObjects := [];
  ObjectManager_LoadObject := fun _ o => S o;
  ObjectManager_LoadObjects := fun l o => ((length l + o)%nat, true);
  gameStateInitAll := fun _ gs => gs;
  ScenarioReset := fun gs => gs;
  GameActions_Execute := fun _ gs => gs;
  ViewportInitAll := fun u => u;
  ContextOpenWindow := fun _ u => (WindowClass_InstallTrack, u);
  ContextOpenWindowView := fun _ u => u;
  TileCoordsXYZ_ToCoordsXYZ := fun _ => tt;
  Window_SetLocation := fun _ _ u => u;
  LoadPalette := fun u => u;
  LanguageGetString := fun _ => EmptyString;
  ToolCancel := fun u => u;
  ContextOpenIntent := fun _ u => u;
  WindowCloseAll := fun _ => [];
  WindowManager_SetMainView := fun _ u => u;
  WindowManager_BroadcastIntent := fun _ u => u;
  ResetAllSpriteQuadrantPlacements := fun es => es;
  ScenerySetDefaultPlacementConfiguration := fun u => u;
  LoadParkFromFile := fun _ m => (m, false);
  GetFileExtensionType := fun _ => FileExtension_Unknown;
  Path_GetExtension := fun p => p;
  ParkImporter_CreateParkFile := fun _ => tt;
  Importer_Load := fun _ _ => None;
  RequiredObjects := fun _ => [];
  Importer_Import := fun _ gs => (gs, false);
  AfterLoadCleanup_exception := fun _ => None;
  MapRemoveAllRides := fun t => t;
  UnlinkAllRideBanners := fun b => b;
  RideInitAll := fun r => r;
  ResetAllEntities := fun _ => [];
  UpdateConsolidatedPatrolAreas := fun _ p => p;
  ClimateReset := fun c => c;
  News_InitQueue := fun n => n;
  CalculateParkSize := fun _ => 0;
  DirectionReverse := fun d => Z.lxor d 2;
  FootpathIsConnectedToMapEdge := fun _ _ _ t => (FOOTPATH_SEARCH_NOT_FOUND, t);
  EditorCheckObjectGroupAtLeastOneSurfaceSelected := fun _ _ => false;
  EditorCheckObjectGroupAtLeastOneSelected := fun _ _ => false;
  MapHasRides := fun _ => false;
  RideCount := fun _ => 0%nat
|}.

#[local] Instance windows : @StepWindows facade := {|
  SCREEN_FLAGS_EDITOR := 14;
  WindowFindByClass := fun c u => if bool_decide (c ∈ u) then Some c else None;
  ContextOpenStepWindow := fun c m => set_ui (c :: ui m) m
|}.

Definition world : @GameState_t facade := {|
  EditorStep := EditorStep.ObjectSelection;
  Park := {| Park.Flags := 0; Park.EntranceFee := 0; Park.Size := 0;
             Park.Entrances := [] |};
  PeepSpawns := [];
  ScenarioCategory := 0;
  ScenarioName := EmptyString;
  NumGuestsInPark := 0;
  NumGuestsHeadingForPark := 0;
  NumGuestsInParkLastWeek := 0;
  GuestChangeModifier := 0;
  GuestInitialCash := 0;
  InitialCash := 0;
  Cash := 0;
  BankLoan := 0;
  MaxBankLoan := 0;
  BankLoanInterestRate := 0;
  Climate := tt;
  MapSize := {| tile_x := 150; tile_y := 150 |};
  SavedView := tt;
  TileElements := tt;
  Rides := tt;
  Banners := tt;
  Entities := [];
  StaffPatrolAreas := tt;
  NewsItems := tt
|}.

(** The track manager at its first step, with seven objects loaded and no
    window open. *)
Definition machine : @Machine facade := {|
  gameState := world;
  gScreenFlags := 8;
  gScreenAge := 0;
  gWindowUpdateTicks := 0;
  ui := [];
  objects := 7%nat
|}.

Definition OpenWindowsForCurrentStep :=
  OpenWindowsForCurrentStep (H := Demo.headers) (K := collaborators)
    (W := windows).

End DemoWindows.

(** ** A clean-up that throws *)

(** Collaborators with another [AfterLoadCleanup_exception]. *)
Definition with_AfterLoadCleanup_exception {F : Facade}
    (thrown : Machine -> option Machine) (K : @Collaborators F)
  : @Collaborators F := {|
  Audio_StopAll := Audio_StopAll;
  Audio_LoadAudioObjects := Audio_LoadAudioObjects;
  ObjectManager_UnloadAll := ObjectManager_UnloadAll;
  ObjectManagerUnloadAllObjects := ObjectManagerUnloadAllObjects;
  ObjectRepository_LoadOrConstruct := ObjectRepository_LoadOrConstruct;
  GetCurrentLanguage := GetCurrentLanguage;
  MinimumRequiredObjects := MinimumRequiredObjects;
  ObjectManager_LoadObject := ObjectManager_LoadObject;
  ObjectManager_LoadObjects := ObjectManager_LoadObjects;
  gameStateInitAll := gameStateInitAll;
  ScenarioReset := ScenarioReset;
  GameActions_Execute := GameActions_Execute;
  ViewportInitAll := ViewportInitAll;
  ContextOpenWindow := ContextOpenWindow;
  ContextOpenWindowView := ContextOpenWindowView;
  TileCoordsXYZ_ToCoordsXYZ := TileCoordsXYZ_ToCoordsXYZ;
  Window_SetLocation := Window_SetLocation;
  LoadPalette := LoadPalette;
  LanguageGetString := LanguageGetString;
  ToolCancel := ToolCancel;
  ContextOpenIntent := ContextOpenIntent;
  WindowCloseAll := WindowCloseAll;
  WindowManager_SetMainView := WindowManager_SetMainView;
  WindowManager_BroadcastIntent := WindowManager_BroadcastIntent;
  ResetAllSpriteQuadrantPlacements := ResetAllSpriteQuadrantPlacements;
  ScenerySetDefaultPlacementConfiguration := ScenerySetDefaultPlacementConfiguration;
  LoadParkFromFile := LoadParkFromFile;
  GetFileExtensionType := GetFileExtensionType;
  Path_GetExtension := Path_GetExtension;
  ParkImporter_CreateParkFile := ParkImporter_CreateParkFile;
  Importer_Load := Importer_Load;
  RequiredObjects := RequiredObjects;
  Importer_Import := Importer_Import;
  AfterLoadCleanup_exception := thrown;
  MapRemoveAllRides := MapRemoveAllRides;
  UnlinkAllRideBanners := UnlinkAllRideBanners;
  RideInitAll := RideInitAll;
  ResetAllEntities := ResetAllEntities;
  UpdateConsolidatedPatrolAreas := UpdateConsolidatedPatrolAreas;
  ClimateReset := ClimateReset;
  News_InitQueue := News_InitQueue;
  CalculateParkSize := CalculateParkSize;
  DirectionReverse := DirectionReverse;
  FootpathIsConnectedToMapEdge := FootpathIsConnectedToMapEdge;
  EditorCheckObjectGroupAtLeastOneSurfaceSelected := EditorCheckObjectGroupAtLeastOneSurfaceSelected;
  EditorCheckObjectGroupAtLeastOneSelected := EditorCheckObjectGroupAtLeastOneSelected;
  MapHasRides := MapHasRides;
  RideCount := RideCount
|}.

(** The demo with a clean-up whose [ViewportInitAll] throws: the map is
    cleared, the step set and the screen age and flags written when the
    exception leaves [AfterLoadCleanup]. *)
Module DemoCleanupThrows.

Definition thrown (m : @Machine Demo.facade)
  : option (@Machine Demo.facade) :=
  Some
    (set_gScreenFlags (@SCREEN_FLAGS_SCENARIO_EDITOR Demo.headers)
       (set_gScreenAge 0
          (on_gameState (set_EditorStep EditorStep.LandscapeEditor)
             (on_gameState (Demo.ClearMapForEditing true) m)))).

Definition collaborators : @Collaborators Demo.facade :=
  with_AfterLoadCleanup_exception thrown Demo.collaborators.

Definition ReadPark :=
  ReadPark (H := Demo.headers) (K := collaborators).

End DemoCleanupThrows.

(** ** A loader that fails after it has written *)

(** Collaborators with another [LoadParkFromFile]. *)
Definition with_LoadParkFromFile {F : Facade}
    (load : string -> Machine -> Machine * bool) (K : @Collaborators F)
  : @Collaborators F := {|
  Audio_StopAll := Audio_StopAll;
  Audio_LoadAudioObjects := Audio_LoadAudioObjects;
  ObjectManager_UnloadAll := ObjectManager_UnloadAll;
  ObjectManagerUnloadAllObjects := ObjectManagerUnloadAllObjects;
  ObjectRepository_LoadOrConstruct := ObjectRepository_LoadOrConstruct;
  GetCurrentLanguage := GetCurrentLanguage;
  MinimumRequiredObjects := MinimumRequiredObjects;
  ObjectManager_LoadObject := ObjectManager_LoadObject;
  ObjectManager_LoadObjects := ObjectManager_LoadObjects;
  gameStateInitAll := gameStateInitAll;
  ScenarioReset := ScenarioReset;
  GameActions_Execute := GameActions_Execute;
  ViewportInitAll := ViewportInitAll;
  ContextOpenWindow := ContextOpenWindow;
  ContextOpenWindowView := ContextOpenWindowView;
  TileCoordsXYZ_ToCoordsXYZ := TileCoordsXYZ_ToCoordsXYZ;
  Window_SetLocation := Window_SetLocation;
  LoadPalette := LoadPalette;
  LanguageGetString := LanguageGetString;
  ToolCancel := ToolCancel;
  ContextOpenIntent := ContextOpenIntent;
  WindowCloseAll := WindowCloseAll;
  WindowManager_SetMainView := WindowManager_SetMainView;
  WindowManager_BroadcastIntent := WindowManager_BroadcastIntent;
  ResetAllSpriteQuadrantPlacements := ResetAllSpriteQuadrantPlacements;
  ScenerySetDefaultPlacementConfiguration := ScenerySetDefaultPlacementConfiguration;
  LoadParkFromFile := load;
  GetFileExtensionType := GetFileExtensionType;
  Path_GetExtension := Path_GetExtension;
  ParkImporter_CreateParkFile := ParkImporter_CreateParkFile;
  Importer_Load := Importer_Load;
  RequiredObjects := RequiredObjects;
  Importer_Import := Importer_Import;
  AfterLoadCleanup_exception := AfterLoadCleanup_exception;
  MapRemoveAllRides := MapRemoveAllRides;
  UnlinkAllRideBanners := UnlinkAllRideBanners;
  RideInitAll := RideInitAll;
  ResetAllEntities := ResetAllEntities;
  UpdateConsolidatedPatrolAreas := UpdateConsolidatedPatrolAreas;
  ClimateReset := ClimateReset;
  News_InitQueue := News_InitQueue;
  CalculateParkSize := CalculateParkSize;
  DirectionReverse := DirectionReverse;
  FootpathIsConnectedToMapEdge := FootpathIsConnectedToMapEdge;
  EditorCheckObjectGroupAtLeastOneSurfaceSelected := EditorCheckObjectGroupAtLeastOneSurfaceSelected;
  EditorCheckObjectGroupAtLeastOneSelected := EditorCheckObjectGroupAtLeastOneSelected;
  MapHasRides := MapHasRides;
  RideCount := RideCount
|}.

(** The demo with a loader that does what [ReadPark] does, with the
    clean-up that throws: the load fails after the step and the screen
    flags were written. *)
Module DemoFailedLoad.

Definition load (path : string) (m : @Machine Demo.facade)
  : @Machine Demo.facade * bool :=
  let r := DemoCleanupThrows.ReadPark path m in
  (snd r, fst r).

Definition collaborators : @Collaborators Demo.facade :=
  with_LoadParkFromFile load Demo.collaborators.

Definition ConvertSaveToScenarioCallback :=
  ConvertSaveToScenarioCallback (H := Demo.headers) (K := collaborators).

End DemoFailedLoad.

(** * Properties *)

(** ** Machine integers *)

Lemma uint8_to_Z_range b : 0 <= uint8_to_Z b < 256.
Proof.
  unfold uint8_to_Z. pose proof (Byte.to_N_bounded b) as Hb.
  apply N.leb_le in Hb. split; [apply N2Z.is_nonneg|].
  apply N.leb_le in Hb. lia.
Qed.

Lemma uint8_to_of_Z z : uint8_to_Z (uint8_of_Z z) = z mod 256.
Proof.
  unfold uint8_to_Z, uint8_of_Z.
  assert (Hr : 0 <= z mod 256 < 256) by (apply Z.mod_pos_bound; lia).
  destruct (Byte.of_N (Z.to_N (z mod 256))) as [b|] eqn:Hb.
  - apply Byte.to_of_N in Hb. rewrite Hb. lia.
  - apply Byte.of_N_None_iff in Hb. lia.
Qed.

Lemma uint8_of_to_Z b : uint8_of_Z (uint8_to_Z b) = b.
Proof.
  unfold uint8_of_Z. pose proof (uint8_to_Z_range b) as Hr.
  rewrite Z.mod_small by lia. unfold uint8_to_Z.
  rewrite N2Z.id, Byte.of_to_N. reflexivity.
Qed.

Lemma uint8_testbit_high b n : 8 <= n -> Z.testbit (uint8_to_Z b) n = false.
Proof.
  intros Hn. pose proof (uint8_to_Z_range b) as Hr.
  rewrite <- (Z.mod_small (uint8_to_Z b) (2 ^ 8)) by lia.
  apply Z.mod_pow2_bits_high. lia.
Qed.

(** What [list[index] &= ~flags] leaves in an eight-bit slot. *)
Lemma uint8_and_not b flags :
  uint8_to_Z (uint8_of_Z (Z.land (uint8_to_Z b) (uint32_not flags)))
  = Z.land (uint8_to_Z b) (Z.lnot flags).
Proof.
  rewrite uint8_to_of_Z. change 256 with (2 ^ 8).
  apply Z.bits_inj'. intros n Hn.
  destruct (Z_lt_le_dec n 8) as [Hlt|Hge].
  - rewrite Z.mod_pow2_bits_low by lia. rewrite !Z.land_spec.
    unfold uint32_not. rewrite Z.mod_pow2_bits_low by lia. reflexivity.
  - rewrite Z.mod_pow2_bits_high by lia.
    rewrite Z.land_spec, uint8_testbit_high by lia. reflexivity.
Qed.

(** What [list[index] |= flags] followed by [list[index] &= ~flags] leaves. *)
Lemma uint8_or_and_not b flags :
  uint8_to_Z
    (uint8_of_Z
       (Z.land (uint8_to_Z (uint8_of_Z (Z.lor (uint8_to_Z b) flags)))
          (uint32_not flags)))
  = Z.land (uint8_to_Z b) (Z.lnot flags).
Proof.
  rewrite uint8_and_not, uint8_to_of_Z. change 256 with (2 ^ 8).
  apply Z.bits_inj'. intros n Hn. rewrite !Z.land_spec.
  destruct (Z_lt_le_dec n 8) as [Hlt|Hge].
  - rewrite Z.mod_pow2_bits_low by lia.
    rewrite Z.lor_spec, Z.lnot_spec by lia.
    destruct (Z.testbit (uint8_to_Z b) n), (Z.testbit flags n); reflexivity.
  - rewrite Z.mod_pow2_bits_high, uint8_testbit_high by lia. reflexivity.
Qed.

Lemma clamp_range v lo hi : lo <= hi -> lo <= clamp v lo hi <= hi.
Proof.
  intros Hle. unfold clamp.
  destruct (Z.ltb_spec v lo); [lia|].
  destruct (Z.ltb_spec hi v); lia.
Qed.

(** ** The selected-object flag store *)

(** Case analysis on the decisions in the goal. *)
Ltac split_cases :=
  repeat case_decide;
  first [ reflexivity | exfalso; intuition congruence | subst; reflexivity ].

Section FlagStoreProperties.
Context {L : ObjectLimits}.

Implicit Types (st : FlagStore) (k : ObjectType.t) (i j : nat) (f : Z).

Lemma GetSelectedObjectFlags_slot st k i :
  GetSelectedObjectFlags k i st = (slot st k i, st).
Proof.
  unfold GetSelectedObjectFlags, slot. f_equal.
  destruct (Nat.ltb_spec i (length (st k))) as [Hlt|Hge].
  - apply nth_lookup.
  - rewrite lookup_ge_None_2 by lia. reflexivity.
Qed.

Lemma grown_length (l : list byte) i :
  length (grown l i) = Nat.max (length l) (S i).
Proof.
  unfold grown. destruct (Nat.leb_spec (length l) i).
  - rewrite length_resize. lia.
  - lia.
Qed.

Lemma grown_lookup (l : list byte) i j :
  default x00 (grown l i !! j) = default x00 (l !! j).
Proof.
  unfold grown. destruct (Nat.leb_spec (length l) i) as [Hle|Hgt]; [|done].
  destruct (Nat.lt_ge_cases j (length l)) as [Hj|Hj].
  - rewrite lookup_resize by lia. done.
  - rewrite (lookup_ge_None_2 l j) by lia.
    destruct (Nat.lt_ge_cases j (i + 1)) as [Hi|Hi].
    + rewrite lookup_resize_new by lia. done.
    + rewrite lookup_resize_old by lia. done.
Qed.

Lemma grown_lookup_index (l : list byte) i :
  grown l i !! i = Some (default x00 (l !! i)).
Proof.
  pose proof (grown_lookup l i i) as Hd.
  destruct (grown l i !! i) as [b|] eqn:Hb.
  - simpl in Hd. by rewrite Hd.
  - apply lookup_ge_None_1 in Hb. rewrite grown_length in Hb. lia.
Qed.

Lemma slot_update (g : byte -> byte) (l : list byte) i j :
  default x00 (alter g i (grown l i) !! j)
  = if decide (i = j) then g (default x00 (l !! i))
    else default x00 (l !! j).
Proof.
  destruct (decide (i = j)) as [->|Hne].
  - rewrite list_lookup_alter_eq, grown_lookup_index. done.
  - rewrite list_lookup_alter_ne by done. apply grown_lookup.
Qed.

Lemma ClearSelectedObject_exec st k i f :
  exec (ClearSelectedObject k i f) st
  = <[k := alter (and_not f) i (grown (st k) i)]> st.
Proof. reflexivity. Qed.

Lemma SetSelectedObject_exec st k i f :
  exec (SetSelectedObject k i f) st
  = if decide (i = OBJECT_ENTRY_INDEX_NULL) then st
    else <[k := alter (or_in f) i (grown (st k) i)]> st.
Proof.
  unfold exec, SetSelectedObject.
  destruct (Nat.eqb_spec i OBJECT_ENTRY_INDEX_NULL);
    destruct (decide (i = OBJECT_ENTRY_INDEX_NULL)); done.
Qed.

Lemma slot_insert st k (l : list byte) k' j :
  slot (<[k := l]> st) k' j
  = if decide (k = k') then default x00 (l !! j) else slot st k' j.
Proof.
  unfold slot. destruct (decide (k = k')) as [->|Hne].
  - by rewrite fn_lookup_insert.
  - by rewrite fn_lookup_insert_ne.
Qed.

Lemma slot_ClearSelectedObject st k i f k' j :
  slot (exec (ClearSelectedObject k i f) st) k' j
  = if decide (k = k' /\ i = j) then and_not f (slot st k i)
    else slot st k' j.
Proof.
  rewrite ClearSelectedObject_exec, slot_insert.
  destruct (decide (k = k')) as [->|Hk].
  - rewrite slot_update. unfold slot. split_cases.
  - split_cases.
Qed.

Lemma slot_SetSelectedObject st k i f k' j :
  slot (exec (SetSelectedObject k i f) st) k' j
  = if decide (i <> OBJECT_ENTRY_INDEX_NULL /\ k = k' /\ i = j)
    then or_in f (slot st k i)
    else slot st k' j.
Proof.
  rewrite SetSelectedObject_exec.
  destruct (decide (i = OBJECT_ENTRY_INDEX_NULL)) as [Hn|Hn].
  - split_cases.
  - rewrite slot_insert. destruct (decide (k = k')) as [->|Hk].
    + rewrite slot_update. unfold slot. split_cases.
    + split_cases.
Qed.

Lemma exec_then {A B} (a : StoreM A) (b : StoreM B) st :
  exec (a >> b) st = exec b (exec a st).
Proof. unfold exec, bind. destruct (a st). reflexivity. Qed.

(** C6.  For every object type [k], index [i] and mask [f]:
    [SetSelectedObject(k, i, f)] followed by [ClearSelectedObject(k, i, f)]
    leaves [GetSelectedObjectFlags(k, i)] equal to the value it had
    before the set, restricted to the bits that are not in [f]. *)
Theorem Set_then_Clear_restricts st k i f :
  uint8_to_Z
    (eval (GetSelectedObjectFlags k i)
       (exec (SetSelectedObject k i f >> ClearSelectedObject k i f) st))
  = Z.land (uint8_to_Z (eval (GetSelectedObjectFlags k i) st)) (Z.lnot f).
Proof.
  unfold eval. rewrite !GetSelectedObjectFlags_slot, exec_then. simpl.
  rewrite slot_ClearSelectedObject.
  destruct (decide (k = k /\ i = i)) as [_|Hn]; [|exfalso; tauto].
  rewrite slot_SetSelectedObject.
  destruct (decide (_ /\ _)) as [_|_].
  - apply uint8_or_and_not.
  - apply uint8_and_not.
Qed.

(** C7.  On a store whose vector for [k] is shorter than [i + 1], as on
    the fresh store, [GetSelectedObjectFlags(k, i)] returns zero and
    leaves the store as it was: no vector is grown or allocated. *)
Theorem Get_beyond_length_is_zero st k i :
  (length (st k) < i + 1)%nat ->
  GetSelectedObjectFlags k i st = (x00, st).
Proof.
  intros Hlen. rewrite GetSelectedObjectFlags_slot. unfold slot.
  rewrite lookup_ge_None_2 by lia. reflexivity.
Qed.

(** C9.  At the null index [SetSelectedObject] does nothing, while
    [ClearSelectedObject] has no such guard: it grows the vector of [k] to
    hold the slot of the null index, filling with zeros, and takes the
    bits of the mask out of that slot. *)
Theorem Clear_at_null_index_is_not_guarded st k f :
  SetSelectedObject k OBJECT_ENTRY_INDEX_NULL f st = (tt, st)
  /\ length (exec (ClearSelectedObject k OBJECT_ENTRY_INDEX_NULL f) st k)
     = Nat.max (length (st k)) (OBJECT_ENTRY_INDEX_NULL + 1)
  /\ exec (ClearSelectedObject k OBJECT_ENTRY_INDEX_NULL f) st k
     = alter
         (fun b => uint8_of_Z (Z.land (uint8_to_Z b) (Z.lnot f)))
         OBJECT_ENTRY_INDEX_NULL
         (st k
          ++ replicate (OBJECT_ENTRY_INDEX_NULL + 1 - length (st k)) x00)
  /\ (forall k', k' <> k ->
        exec (ClearSelectedObject k OBJECT_ENTRY_INDEX_NULL f) st k' = st k').
Proof.
  set (n := OBJECT_ENTRY_INDEX_NULL).
  split; [|split; [|split]].
  - unfold SetSelectedObject. fold n. rewrite Nat.eqb_refl. reflexivity.
  - rewrite ClearSelectedObject_exec, fn_lookup_insert, length_alter,
      grown_length. lia.
  - rewrite ClearSelectedObject_exec, fn_lookup_insert.
    assert (Hg : grown (st k) n
                 = st k ++ replicate (n + 1 - length (st k)) x00).
    { unfold grown. destruct (Nat.leb_spec (length (st k)) n) as [Hle|Hgt].
      - rewrite resize_spec, take_ge by lia. reflexivity.
      - replace (n + 1 - length (st k))%nat with 0%nat by lia.
        simpl. rewrite app_nil_r. reflexivity. }
    rewrite Hg. apply list_alter_ext; [|reflexivity].
    intros b _. unfold and_not.
    rewrite <- (uint8_of_to_Z
                  (uint8_of_Z (Z.land (uint8_to_Z b) (uint32_not f)))).
    rewrite uint8_and_not. reflexivity.
  - intros k' Hk. rewrite ClearSelectedObject_exec.
    apply fn_lookup_insert_ne. congruence.
Qed.

End FlagStoreProperties.

(** The theorem on the fresh store, and on a store that has flags for
    rides only. *)
Lemma Get_beyond_length_is_zero_witness :
  GetSelectedObjectFlags ObjectType.Ride 1%nat FlagStore_fresh
  = (x00, FlagStore_fresh)
  /\ GetSelectedObjectFlags ObjectType.Water 7%nat Demo.store
     = (x00, Demo.store).
Proof.
  split.
  - apply (Get_beyond_length_is_zero FlagStore_fresh ObjectType.Ride 1%nat).
    simpl. lia.
  - apply (Get_beyond_length_is_zero Demo.store ObjectType.Water 7%nat).
    simpl. lia.
Defined.

(** Setting and clearing the low four bits of a slot that holds [0xff]. *)
Example Set_then_Clear_on_demo_store :
  eval (GetSelectedObjectFlags ObjectType.Ride 1%nat)
    (exec
       (SetSelectedObject (L := Demo.limits) ObjectType.Ride 1%nat 15
        >> ClearSelectedObject ObjectType.Ride 1%nat 15)
       Demo.store)
  = xf0.
Proof. reflexivity. Qed.

(** ** The object-group validator *)

Section ValidatorProperties.
Context {H : Headers} {F : Facade} {K : @Collaborators F}.

Lemma FirstFailure_app (before after : list Rule) :
  Forall (fun q => violated q = false) before ->
  FirstFailure (before ++ after) = FirstFailure after.
Proof.
  induction 1 as [|q before Hq _ IH]; simpl; [reflexivity|].
  rewrite Hq. exact IH.
Qed.

Lemma FirstFailure_none (rules : list Rule) :
  Forall (fun q => violated q = false) rules ->
  FirstFailure rules = (ObjectType.None, STR_NONE).
Proof.
  intros Hall. rewrite <- (app_nil_r rules).
  rewrite FirstFailure_app by assumption. reflexivity.
Qed.

Lemma CheckObjectSelection_FirstFailure (m : Machine) :
  CheckObjectSelection m = FirstFailure (SelectionRules m).
Proof.
  unfold CheckObjectSelection, SelectionRules, FirstFailure, violated,
    TrackDesignerOrManager. simpl.
  destruct (bool_of_Z _); simpl;
    repeat
      match goal with
      | |- context [EditorCheckObjectGroupAtLeastOneSurfaceSelected ?q ?o] =>
          destruct (EditorCheckObjectGroupAtLeastOneSurfaceSelected q o);
          simpl; try reflexivity
      | |- context [EditorCheckObjectGroupAtLeastOneSelected ?k ?o] =>
          destruct (EditorCheckObjectGroupAtLeastOneSelected k o);
          simpl; try reflexivity
      end.
Qed.

(** C2.  [CheckObjectSelection] evaluates the nine rules in the order of
    the specification (non-queue surface, queue surface, railings, ride,
    station, terrain surface, terrain edge, park entrance, water; the first
    three and the last two outside track-designer and track-manager mode
    only) and returns the report of the first rule that fails: a rule that
    fails is reported when every rule before it holds, whatever the rules
    after it do, and when all hold the result is [(None, STR_NONE)]. *)
Theorem CheckObjectSelection_first_failure_wins (m : Machine) :
  CheckObjectSelection m = FirstFailure (SelectionRules m)
  /\ (forall before r after,
         SelectionRules m = before ++ r :: after ->
         Forall (fun q => violated q = false) before ->
         violated r = true ->
         CheckObjectSelection m = report r)
  /\ (Forall (fun q => violated q = false) (SelectionRules m) ->
      CheckObjectSelection m = (ObjectType.None, STR_NONE)).
Proof.
  split; [apply CheckObjectSelection_FirstFailure|]. split.
  - intros before r after Hrules Hbefore Hr.
    rewrite CheckObjectSelection_FirstFailure, Hrules.
    rewrite FirstFailure_app by assumption. simpl. rewrite Hr. reflexivity.
  - intros Hall. rewrite CheckObjectSelection_FirstFailure.
    apply FirstFailure_none. assumption.
Qed.

End ValidatorProperties.

(** Nothing selected in scenario mode: the non-queue surface is reported,
    although the other eight rules fail too. *)
Lemma CheckObjectSelection_first_failure_wins_witness :
  Demo.CheckObjectSelection Demo.machine
  = (ObjectType.FootpathSurface,
     STR_AT_LEAST_ONE_FOOTPATH_NON_QUEUE_SURFACE_OBJECT_MUST_BE_SELECTED).
Proof.
  apply (proj1 (proj2 (CheckObjectSelection_first_failure_wins
                         (H := Demo.headers) (K := Demo.collaborators)
                         Demo.machine))
           [] (Build_Rule true false _)
           (tl (SelectionRules (H := Demo.headers) (K := Demo.collaborators)
                  Demo.machine))).
  - reflexivity.
  - constructor.
  - reflexivity.
Defined.

(** With a non-queue surface only, the queue surface is reported; in
    track-designer mode the footpath rules are skipped. *)
Example CheckObjectSelection_queue_surface_next :
  Demo.CheckObjectSelection
    (set_objects (H := Demo.facade)
       {| Demo.selectedKinds := []; Demo.nonQueueSurface := true;
          Demo.queueSurface := false |}
       Demo.machine)
  = (ObjectType.FootpathSurface,
     STR_AT_LEAST_ONE_FOOTPATH_QUEUE_SURFACE_OBJECT_MUST_BE_SELECTED)
  /\ Demo.CheckObjectSelection (set_gScreenFlags 4 Demo.machine)
     = (ObjectType.Ride, STR_AT_LEAST_ONE_RIDE_OBJECT_MUST_BE_SELECTED).
Proof. split; reflexivity. Qed.

(** ** The park validator *)

Section ParkValidatorProperties.
Context {H : Headers} {F : Facade} {K : @Collaborators F}.

Implicit Types (gs : GameState_t) (tiles : TileMap)
  (entrances : list CoordsXYZD.t).

Lemma find_failure_None (rs : list FootpathSearchResult) :
  find (fun r => negb (is_success r)) rs = None <-> all_success rs.
Proof.
  unfold all_success. induction rs as [|r rs IH]; simpl.
  - split; [constructor|reflexivity].
  - destruct r; simpl; split; intros Hx;
      try discriminate; try (inversion Hx; subst; discriminate).
    + constructor; [reflexivity|]. apply IH, Hx.
    + inversion Hx; subst. apply IH. assumption.
Qed.

(** The message of the loop is the message of the first reply that is not
    [Success]. *)
Lemma CheckPark_entrances_message entrances : forall tiles,
  fst (CheckPark_entrances entrances tiles)
  = SearchMessage
      <$> find (fun r => negb (is_success r))
            (EntranceSearches entrances tiles).
Proof.
  induction entrances as [|e rest IH]; intros tiles; simpl; [reflexivity|].
  destruct (fst (FootpathIsConnectedToMapEdge e _ 0 tiles)) eqn:Hr;
    simpl; try reflexivity.
  apply IH.
Qed.

Lemma CheckPark_entrances_outcome entrances : forall tiles,
  loop_outcome entrances tiles
    (fst (CheckPark_entrances entrances tiles))
    (snd (CheckPark_entrances entrances tiles)).
Proof.
  induction entrances as [|e rest IH]; intros tiles.
  - exists [], []. repeat split. constructor.
  - simpl.
    destruct (fst (FootpathIsConnectedToMapEdge e _ 0 tiles)) eqn:Hr.
    + destruct (IH (snd (FootpathIsConnectedToMapEdge e
                           (DirectionReverse (CoordsXYZD.direction e))
                           (Z.shiftl 1 5)
                           (snd (FootpathIsConnectedToMapEdge e
                                   (DirectionReverse (CoordsXYZD.direction e))
                                   0 tiles)))))
        as (examined & rest' & Hsplit & Hall & Hrest).
      exists (e :: examined), rest'. split; [rewrite Hsplit; reflexivity|].
      split.
      * simpl. rewrite Hr. constructor; [reflexivity|exact Hall].
      * simpl. exact Hrest.
    + exists [], (e :: rest). split; [reflexivity|]. split; [constructor|].
      simpl. rewrite Hr. repeat split. discriminate.
    + exists [], (e :: rest). split; [reflexivity|]. split; [constructor|].
      simpl. rewrite Hr. repeat split. discriminate.
    + exists [], (e :: rest). split; [reflexivity|]. split; [constructor|].
      simpl. rewrite Hr. repeat split. discriminate.
Qed.

Lemma CheckPark_refines_spec gs : fst (CheckPark gs) = CheckPark_spec gs.
Proof.
  unfold CheckPark, CheckPark_spec, Park_UpdateSize.
  cbn [fst snd set_Park Park Park_set_Size Park.Entrances TileElements
         PeepSpawns set_TileElements].
  destruct (CalculateParkSize (TileElements gs) =? 0); [reflexivity|].
  destruct (Park.Entrances (Park gs)) as [|e rest] eqn:He; [reflexivity|].
  rewrite bool_decide_eq_false_2 by discriminate.
  pose proof (CheckPark_entrances_message (e :: rest) (TileElements gs))
    as Hmsg.
  destruct (fst (CheckPark_entrances (e :: rest) (TileElements gs)))
    as [message|];
    destruct (find _ (EntranceSearches (e :: rest) (TileElements gs)))
    as [r|]; try discriminate.
  - injection Hmsg as ->. reflexivity.
  - destruct (PeepSpawns gs); reflexivity.
Qed.

(** C3.  [CheckPark] returns [(true, STR_NONE)] exactly when the recomputed
    owned-land size is not zero, there is an entrance, the footpath search
    from every entrance in its reverse direction replies [Success], and
    there is a peep spawn; otherwise it returns [false] with the message of
    the first check that fails, in the order ownership, entrances, the
    search of each entrance ([NotFound], or [Incomplete] and
    [TooComplex]), peep spawns. *)
Theorem CheckPark_decides gs :
  (fst (CheckPark gs) = (true, STR_NONE)
   <-> CalculateParkSize (TileElements gs) <> 0
       /\ Park.Entrances (Park gs) <> []
       /\ all_success
            (EntranceSearches (Park.Entrances (Park gs)) (TileElements gs))
       /\ PeepSpawns gs <> [])
  /\ fst (CheckPark gs) = CheckPark_spec gs
  /\ (fst (fst (CheckPark gs)) = true -> snd (fst (CheckPark gs)) = STR_NONE).
Proof.
  rewrite CheckPark_refines_spec. unfold CheckPark_spec.
  destruct (Z.eqb_spec (CalculateParkSize (TileElements gs)) 0) as [Hz|Hz].
  { split; [|split; [reflexivity|discriminate]].
    split; [discriminate|]. intros (Hn & _). contradiction. }
  destruct (Park.Entrances (Park gs)) as [|e rest] eqn:He.
  { split; [|split; [reflexivity|discriminate]].
    split; [discriminate|]. intros (_ & Hn & _). contradiction. }
  destruct (find _ (EntranceSearches (e :: rest) (TileElements gs)))
    as [r|] eqn:Hfind.
  { split; [|split; [reflexivity|discriminate]].
    split; [discriminate|]. intros (_ & _ & Hall & _).
    apply find_failure_None in Hall. congruence. }
  apply find_failure_None in Hfind.
  destruct (PeepSpawns gs) as [|p ps].
  { split; [|split; [reflexivity|discriminate]].
    split; [discriminate|]. intros (_ & _ & _ & Hn). contradiction. }
  split; [|split; reflexivity].
  split; [|reflexivity]. intros _. repeat split; try discriminate; assumption.
Qed.

(** C10.  A failure of [CheckPark] after the first check takes nothing
    back: the park-size cache holds the recomputed size, and the tiles are
    the ones left by the searches made so far, the routes of the entrances
    that replied [Success] before the failure being out of ownership. *)
Theorem CheckPark_failure_keeps_effects gs message :
  fst (CheckPark gs) = (false, message) ->
  message <> STR_PARK_MUST_OWN_SOME_LAND ->
  Park.Size (Park (snd (CheckPark gs))) = CalculateParkSize (TileElements gs)
  /\ exists examined rest,
       Park.Entrances (Park gs) = examined ++ rest
       /\ all_success (EntranceSearches examined (TileElements gs))
       /\ match rest with
          | [] =>
              snd (CheckPark gs)
              = set_TileElements (UnownRoutes examined (TileElements gs))
                  (snd (Park_UpdateSize gs))
          | bad :: _ =>
              let r :=
                FootpathIsConnectedToMapEdge bad
                  (DirectionReverse (CoordsXYZD.direction bad)) 0
                  (UnownRoutes examined (TileElements gs)) in
              fst r <> FOOTPATH_SEARCH_SUCCESS
              /\ message = SearchMessage (fst r)
              /\ snd (CheckPark gs)
                 = set_TileElements (snd r) (snd (Park_UpdateSize gs))
          end.
Proof.
  unfold CheckPark, Park_UpdateSize.
  cbn [fst snd set_Park Park Park_set_Size Park.Entrances Park.Size
         TileElements PeepSpawns set_TileElements].
  destruct (CalculateParkSize (TileElements gs) =? 0).
  { simpl. intros [= <-] Hm. contradiction. }
  destruct (Park.Entrances (Park gs)) as [|e rest] eqn:He.
  { simpl. intros _ _. split; [reflexivity|].
    exists [], []. repeat split. constructor. }
  rewrite bool_decide_eq_false_2 by discriminate.
  destruct (CheckPark_entrances_outcome (e :: rest) (TileElements gs))
    as (examined & rest' & Hsplit & Hall & Hrest).
  destruct (fst (CheckPark_entrances (e :: rest) (TileElements gs)))
    as [msg|] eqn:Hmsg.
  - cbn [fst snd]. intros [= <-] _. split; [reflexivity|].
    exists examined, rest'. split; [exact Hsplit|]. split; [exact Hall|].
    destruct rest' as [|bad rest'']; [destruct Hrest; discriminate|].
    destruct Hrest as (Hbad & Hm & Hfinal). injection Hm as ->.
    split; [exact Hbad|]. split; [reflexivity|].
    rewrite Hfinal. reflexivity.
  - destruct (PeepSpawns gs) as [|p ps] eqn:Hp; cbn [fst snd];
      [|discriminate].
    intros _ _. split; [reflexivity|].
    exists examined, rest'. split; [exact Hsplit|]. split; [exact Hall|].
    destruct rest' as [|bad rest''].
    + destruct Hrest as [_ Hfinal]. rewrite Hfinal. reflexivity.
    + destruct Hrest as (_ & Hm & _). discriminate.
Qed.

End ParkValidatorProperties.

(** The demo park with one connected entrance passes. *)
Lemma CheckPark_decides_witness :
  fst (Demo.CheckPark Demo.connected_park) = (true, STR_NONE).
Proof.
  apply (proj1 (CheckPark_decides (K := Demo.collaborators)
                  Demo.connected_park)).
  split; [discriminate|]. split; [discriminate|].
  split; [|discriminate]. repeat constructor.
Defined.

(** The demo park: its second entrance has no path, and the message is
    the one of a search that found nothing. *)
Example CheckPark_demo_park :
  fst (Demo.CheckPark Demo.park)
  = (false, STR_PARK_ENTRANCE_WRONG_DIRECTION_OR_NO_PATH).
Proof. reflexivity. Qed.

(** On the demo park the validator fails at the second entrance, after the
    route of the first was taken out of ownership. *)
Lemma CheckPark_failure_keeps_effects_witness :
  Park.Size (Park (snd (Demo.CheckPark Demo.park))) = 2
  /\ Demo.owned_tiles_after_failure = [(4, 4)]
  /\ Demo.owned (TileElements Demo.park) = [(3, 3); (4, 4)].
Proof.
  destruct (CheckPark_failure_keeps_effects (K := Demo.collaborators)
              Demo.park STR_PARK_ENTRANCE_WRONG_DIRECTION_OR_NO_PATH)
    as [Hsize _].
  - reflexivity.
  - discriminate.
  - split; [exact Hsize|split; reflexivity].
Defined.

(** ** The landscape-import clean-up *)

Section CleanupProperties.
Context {H : Headers} {F : Facade} {K : @Collaborators F}.

(** C4.  After the clean-up of a saved game ([fromSave = true]), from any
    game state: the initial cash of guests lies between [10.00_GBP] and
    [MAX_ENTRANCE_FEE]; the initial cash is the old one cut down to
    [100000], and the cash-on-hand equals it; the bank loan and the
    maximum bank loan lie between [0.00_GBP] and [5000000.00_GBP]; the
    interest rate lies between [5] and [MaxBankLoanInterestRate]; no guest
    is counted in the park; and no ride is left on the map or in the ride
    registry. *)
Theorem ClearMapForEditing_from_save (gs : GameState_t) :
  CleanupContract ->
  let gs' := ClearMapForEditing true gs in
  GBP 10 <= GuestInitialCash gs' <= MAX_ENTRANCE_FEE
  /\ InitialCash gs' = Z.min (InitialCash gs) 100000
  /\ InitialCash gs' <= 100000
  /\ InitialCash gs' <= GBP 100000
  /\ Cash gs' = InitialCash gs'
  /\ 0 <= BankLoan gs' <= GBP 5000000
  /\ 0 <= MaxBankLoan gs' <= GBP 5000000
  /\ 5 <= BankLoanInterestRate gs' <= MaxBankLoanInterestRate
  /\ NumGuestsInPark gs' = 0
  /\ MapHasRides (TileElements gs') = false
  /\ RideCount (Rides gs') = 0%nat.
Proof.
  intros [Hunit Hguest Hrate Hmap Hrides]. simpl.
  assert (Hloan : GBP 0 <= GBP 5000000) by (unfold GBP; lia).
  change (GBP 0) with 0 in *.
  repeat split;
    try (apply clamp_range; assumption);
    try reflexivity; try apply Hmap; try apply Hrides;
    unfold GBP; lia.
Qed.

End CleanupProperties.

(** The constants and collaborators of the demo keep the contract. *)
Lemma Demo_CleanupContract :
  CleanupContract (H := Demo.headers) (K := Demo.collaborators).
Proof. split; try reflexivity; try discriminate; intros; reflexivity. Qed.

(** The clean-up of the demo park, a saved game with an initial cash of
    [250000], a loan of [100000000], a negative maximum loan and an
    interest rate of [2]; ten units of money make a currency unit. *)
Lemma ClearMapForEditing_from_save_witness :
  let gs' := Demo.ClearMapForEditing true Demo.park in
  100 <= GuestInitialCash gs' <= 9990
  /\ InitialCash gs' = Z.min 250000 100000
  /\ InitialCash gs' <= 100000
  /\ InitialCash gs' <= 1000000
  /\ Cash gs' = InitialCash gs'
  /\ 0 <= BankLoan gs' <= 50000000
  /\ 0 <= MaxBankLoan gs' <= 50000000
  /\ 5 <= BankLoanInterestRate gs' <= 255
  /\ NumGuestsInPark gs' = 0
  /\ Demo.MapHasRides (TileElements gs') = false
  /\ length (Rides gs') = 0%nat.
Proof.
  exact (ClearMapForEditing_from_save (K := Demo.collaborators)
           Demo.park Demo_CleanupContract).
Defined.

(** The values the clean-up leaves on the demo park. *)
Example ClearMapForEditing_demo_values :
  let gs' := Demo.ClearMapForEditing true Demo.park in
  (GuestInitialCash gs', InitialCash gs', Cash gs')
  = (100, 100000, 100000)
  /\ (BankLoan gs', MaxBankLoan gs', BankLoanInterestRate gs')
     = (50000000, 0, 5)
  /\ Z.testbit (Park.Flags (Park gs')) 11 = true.
Proof. repeat split; reflexivity. Qed.

(** ** The session entry points *)

Section SessionProperties.
Context {H : Headers} {F : Facade} {K : @Collaborators F}.

Implicit Types (m : Machine) (path : string).

Lemma FinaliseMainView_step m :
  EditorStep (gameState (FinaliseMainView m)) = EditorStep (gameState m).
Proof. reflexivity. Qed.

Lemma AfterLoadCleanup_step fromSave m :
  EditorStep (gameState (AfterLoadCleanup fromSave m))
  = EditorStep.LandscapeEditor.
Proof. reflexivity. Qed.

(** Opening the file picker touches the user interface only. *)
Lemma ConvertSaveToScenario_world m :
  gameState (ConvertSaveToScenario m) = gameState m
  /\ gScreenFlags (ConvertSaveToScenario m) = gScreenFlags m.
Proof. split; reflexivity. Qed.


(** C8.  Every entry point leaves the step it is meant to: [Load],
    [LoadTrackDesigner] and [LoadTrackManager] leave [ObjectSelection];
    [ConvertSaveToScenarioCallback] after a successful load leaves
    [ObjectiveSelection]; a successful [LoadLandscape] leaves
    [LandscapeEditor]; in none of these cases is the step [Invalid]. *)
Theorem entry_points_establish_step result path m :
  let entered (step : EditorStep.t) (m' : Machine) :=
    EditorStep (gameState m') = step
    /\ EditorStep (gameState m') <> EditorStep.Invalid in
  entered EditorStep.ObjectSelection (Load m)
  /\ entered EditorStep.ObjectSelection (LoadTrackDesigner m)
  /\ entered EditorStep.ObjectSelection (LoadTrackManager m)
  /\ (result = MODAL_RESULT_OK ->
      snd (LoadParkFromFile path m) = true ->
      entered EditorStep.ObjectiveSelection
        (ConvertSaveToScenarioCallback result path m))
  /\ (fst (LoadLandscape path m) = true ->
      entered EditorStep.LandscapeEditor (snd (LoadLandscape path m))).
Proof.
  simpl. split; [split; [reflexivity|discriminate]|].
  split; [split; [reflexivity|discriminate]|].
  split; [split; [reflexivity|discriminate]|].
  split.
  - intros -> Hload. unfold ConvertSaveToScenarioCallback.
    rewrite Z.eqb_refl, Hload. simpl. split; [reflexivity|discriminate].
  - unfold LoadLandscape, ReadS4OrS6, ReadPark.
    destruct (GetFileExtensionType path); simpl; try discriminate;
      try (destruct (snd (LoadParkFromFile path _)); simpl;
           [intros _; split; [reflexivity|discriminate]|discriminate]).
    destruct (Importer_Load path _) as [[importer loadResult]|]; simpl;
      [|discriminate].
    destruct (snd (ObjectManager_LoadObjects _ _)); simpl; [|discriminate].
    destruct (snd (Importer_Import importer _)); simpl; [|discriminate].
    destruct (AfterLoadCleanup_exception _); simpl; [discriminate|].
    intros _. split; [reflexivity|discriminate].
Qed.

Lemma String_IEquals_ToLower (a : string) : forall b,
  String_IEquals a b = String.eqb (String_ToLower a) (String_ToLower b).
Proof.
  induction a as [|c a IH]; intros [|d b]; simpl; try reflexivity.
  rewrite IH. reflexivity.
Qed.

(** The flag that [ReadS4OrS6] hands to the clean-up is [false] for the
    extension [.sv7] only. *)
Lemma ReadS4OrS6_loadedFromSave_sv7 (extension : string) :
  ReadS4OrS6_loadedFromSave extension
  = negb (String_IEquals extension ".sv7").
Proof.
  unfold ReadS4OrS6_loadedFromSave.
  rewrite !String_IEquals_ToLower.
  destruct (String.eqb_spec (String_ToLower extension)
              (String_ToLower ".sv7")) as [Heq|Hne].
  - rewrite Heq. reflexivity.
  - simpl. rewrite !orb_true_r. reflexivity.
Qed.

(** A file that the legacy reader loads is cleaned up as a saved game
    unless its extension is [.sv7]. *)
Lemma ReadS4OrS6_cleans_as_save path m :
  snd (LoadParkFromFile path m) = true ->
  String_IEquals (Path_GetExtension path) ".sv7" = false ->
  ReadS4OrS6 path m
  = (true, AfterLoadCleanup true (fst (LoadParkFromFile path m))).
Proof.
  intros Hload H7. unfold ReadS4OrS6.
  rewrite Hload, ReadS4OrS6_loadedFromSave_sv7, H7. reflexivity.
Qed.

End SessionProperties.

(** C1.  The flag [loadedFromSave] that [ReadS4OrS6] hands to the
    clean-up is [true] for the scenario extensions [.sc4] and [.sc6], as
    it is for [.sv4] and [.sv6], where the claim asks [false]: the
    scenario [park.sc6] is cleaned up as a saved game, finances clamped
    and the no-money flag set. *)
Theorem ReadS4OrS6_scenario_cleaned_as_save :
  ReadS4OrS6_loadedFromSave ".sc4" = true
  /\ ReadS4OrS6_loadedFromSave ".sc6" = true
  /\ ReadS4OrS6_loadedFromSave ".sv4" = true
  /\ ReadS4OrS6_loadedFromSave ".sv6" = true
  /\ Demo.ReadS4OrS6 "park.sc6" Demo.machine
     = (true,
        AfterLoadCleanup (H := Demo.headers) (K := Demo.collaborators) true
          Demo.machine)
  /\ BankLoan
       (gameState (snd (Demo.LoadLandscape "park.sc6" Demo.machine)))
     = 50000000
  /\ BankLoan
       (gameState
          (AfterLoadCleanup (H := Demo.headers) (K := Demo.collaborators)
             false Demo.machine))
     = 100000000.
Proof. repeat split; reflexivity. Qed.



(** The steps on the demo machine, whose step is [Invalid] before. *)
Lemma entry_points_establish_step_witness :
  EditorStep (gameState Demo.machine) = EditorStep.Invalid
  /\ EditorStep (gameState (Demo.Load Demo.machine))
     = EditorStep.ObjectSelection
  /\ EditorStep
       (gameState
          (Demo.ConvertSaveToScenarioCallback 1 "park.sv6" Demo.machine))
     = EditorStep.ObjectiveSelection
  /\ EditorStep
       (gameState (snd (Demo.LoadLandscape "park.sv6" Demo.machine)))
     = EditorStep.LandscapeEditor.
Proof.
  destruct (entry_points_establish_step
              (H := Demo.headers) (K := Demo.collaborators)
              1 "park.sv6" Demo.machine)
    as (Hload & _ & _ & Hconvert & Hlandscape).
  split; [reflexivity|]. split; [apply Hload|]. split.
  - apply Hconvert; reflexivity.
  - apply Hlandscape. reflexivity.
Defined.

(** * Further properties *)

(** ** The flag store: bytes *)

Lemma uint8_to_Z_inj (a b : byte) : uint8_to_Z a = uint8_to_Z b -> a = b.
Proof.
  intros Heq. rewrite <- (uint8_of_to_Z a), <- (uint8_of_to_Z b), Heq.
  reflexivity.
Qed.

Lemma uint8_to_Z_or_in f b :
  uint8_to_Z (or_in f b) = Z.lor (uint8_to_Z b) (f mod 2 ^ 8).
Proof.
  unfold or_in. rewrite uint8_to_of_Z. change 256 with (2 ^ 8).
  apply Z.bits_inj'. intros n Hn.
  destruct (Z_lt_le_dec n 8) as [Hlt|Hge].
  - rewrite Z.mod_pow2_bits_low, !Z.lor_spec, Z.mod_pow2_bits_low by lia.
    reflexivity.
  - rewrite Z.mod_pow2_bits_high, Z.lor_spec, Z.mod_pow2_bits_high,
      uint8_testbit_high by lia.
    reflexivity.
Qed.

Lemma uint8_to_Z_and_not f b :
  uint8_to_Z (and_not f b) = Z.land (uint8_to_Z b) (Z.lnot f).
Proof. apply uint8_and_not. Qed.

Lemma or_in_idem f b : or_in f (or_in f b) = or_in f b.
Proof.
  apply uint8_to_Z_inj. rewrite !uint8_to_Z_or_in.
  rewrite <- Z.lor_assoc, Z.lor_diag. reflexivity.
Qed.

Lemma and_not_idem f b : and_not f (and_not f b) = and_not f b.
Proof.
  apply uint8_to_Z_inj. rewrite !uint8_to_Z_and_not.
  rewrite <- Z.land_assoc, Z.land_diag. reflexivity.
Qed.

Lemma or_in_low f b : or_in (f mod 2 ^ 8) b = or_in f b.
Proof.
  apply uint8_to_Z_inj. rewrite !uint8_to_Z_or_in.
  rewrite Z.mod_mod by lia. reflexivity.
Qed.

Lemma and_not_low f b : and_not (f mod 2 ^ 8) b = and_not f b.
Proof.
  apply uint8_to_Z_inj. rewrite !uint8_to_Z_and_not.
  apply Z.bits_inj'. intros n Hn. rewrite !Z.land_spec.
  destruct (Z_lt_le_dec n 8) as [Hlt|Hge].
  - rewrite !Z.lnot_spec, Z.mod_pow2_bits_low by lia. reflexivity.
  - rewrite uint8_testbit_high by lia. reflexivity.
Qed.

Lemma or_in_and_not_comm f g b :
  Z.land (f mod 2 ^ 8) (g mod 2 ^ 8) = 0 ->
  or_in f (and_not g b) = and_not g (or_in f b).
Proof.
  intros Hdisj. apply uint8_to_Z_inj.
  rewrite uint8_to_Z_or_in, !uint8_to_Z_and_not, uint8_to_Z_or_in.
  apply Z.bits_inj'. intros n Hn.
  rewrite !Z.lor_spec, !Z.land_spec, Z.lor_spec, Z.lnot_spec by lia.
  assert (Hbit : Z.testbit (f mod 2 ^ 8) n && Z.testbit (g mod 2 ^ 8) n
                 = false).
  { rewrite <- Z.land_spec, Hdisj. apply Z.bits_0. }
  destruct (Z_lt_le_dec n 8) as [Hlt|Hge].
  - rewrite !Z.mod_pow2_bits_low in * by lia.
    destruct (Z.testbit (uint8_to_Z b) n), (Z.testbit f n),
      (Z.testbit g n); simpl in *; congruence.
  - rewrite uint8_testbit_high, Z.mod_pow2_bits_high by lia. reflexivity.
Qed.

(** ** The flag store: vectors *)

(** Two vectors of the same length with the same bytes are the same. *)
Lemma vector_ext (l1 l2 : list byte) :
  length l1 = length l2 ->
  (forall j, default x00 (l1 !! j) = default x00 (l2 !! j)) ->
  l1 = l2.
Proof.
  intros Hlen Hslots. apply list_eq. intros j.
  destruct (Nat.lt_ge_cases j (length l1)) as [Hlt|Hge].
  - destruct (lookup_lt_is_Some_2 l1 j Hlt) as [a Ha].
    destruct (lookup_lt_is_Some_2 l2 j ltac:(lia)) as [b Hb].
    specialize (Hslots j). rewrite Ha, Hb in *. simpl in Hslots.
    congruence.
  - rewrite !lookup_ge_None_2 by lia. reflexivity.
Qed.

Lemma touch_slot (g : byte -> byte) k i (st : FlagStore) k' j :
  slot (touch g k i st) k' j
  = if decide (k = k' /\ i = j) then g (slot st k i) else slot st k' j.
Proof.
  unfold touch. rewrite slot_insert.
  destruct (decide (k = k')) as [->|Hk].
  - rewrite slot_update. unfold slot. split_cases.
  - split_cases.
Qed.

Lemma touch_length (g : byte -> byte) k i (st : FlagStore) k' :
  length (touch g k i st k')
  = if decide (k = k') then Nat.max (length (st k)) (S i)
    else length (st k').
Proof.
  unfold touch. destruct (decide (k = k')) as [->|Hk].
  - rewrite fn_lookup_insert, length_alter. apply grown_length.
  - rewrite fn_lookup_insert_ne by done. reflexivity.
Qed.

(** Two stores with vectors of the same lengths and the same bytes have
    the same vectors. *)
Lemma store_ext (st1 st2 : FlagStore) k :
  length (st1 k) = length (st2 k) ->
  (forall j, slot st1 k j = slot st2 k j) ->
  st1 k = st2 k.
Proof. intros Hlen Hslots. apply vector_ext; assumption. Qed.

Lemma touch_touch_same (g h : byte -> byte) k i (st : FlagStore) k' :
  touch g k i (touch h k i st) k' = touch (fun b => g (h b)) k i st k'.
Proof.
  apply store_ext.
  - rewrite !touch_length. repeat case_decide; subst; try congruence; lia.
  - intros j. rewrite !touch_slot.
    repeat case_decide;
      first [ reflexivity | exfalso; intuition congruence
            | intuition (subst; reflexivity) ].
Qed.

Lemma touch_touch_comm (g h : byte -> byte) k i k2 i2 (st : FlagStore) k' :
  (k, i) <> (k2, i2) ->
  touch g k i (touch h k2 i2 st) k' = touch h k2 i2 (touch g k i st) k'.
Proof.
  intros Hne. apply store_ext.
  - rewrite !touch_length. repeat case_decide; subst; try congruence; lia.
  - intros j. rewrite !touch_slot.
    repeat case_decide;
      first [ reflexivity | exfalso; intuition congruence
            | intuition (subst; reflexivity) ].
Qed.

Lemma touch_ext (g h : byte -> byte) k i (st : FlagStore) :
  (forall b, g b = h b) -> touch g k i st = touch h k i st.
Proof.
  intros Hgh. unfold touch. f_equal. apply list_alter_ext; [|reflexivity].
  intros b _. apply Hgh.
Qed.

Section FlagStoreFurther.
Context {L : ObjectLimits}.

Implicit Types (st : FlagStore) (k : ObjectType.t) (i j : nat) (f g : Z).

Lemma exec_Clear st k i f :
  exec (ClearSelectedObject k i f) st = touch (and_not f) k i st.
Proof. reflexivity. Qed.

Lemma exec_Set st k i f :
  exec (SetSelectedObject k i f) st
  = if decide (i = OBJECT_ENTRY_INDEX_NULL) then st
    else touch (or_in f) k i st.
Proof. apply SetSelectedObject_exec. Qed.

End FlagStoreFurther.

Section FlagStoreFurtherProperties.
Context {L : ObjectLimits}.

Implicit Types (st : FlagStore) (k : ObjectType.t) (i j : nat) (f g : Z).

Lemma eval_Get st k i : eval (GetSelectedObjectFlags k i) st = slot st k i.
Proof. unfold eval. rewrite GetSelectedObjectFlags_slot. reflexivity. Qed.

(** X1.  After [SetSelectedObject(k, i, f)] at an index other than the
    null index, [GetSelectedObjectFlags(k, i)] is the old value with the
    low eight bits of [f] or-ed in. *)
Theorem Get_after_Set st k i f :
  i <> OBJECT_ENTRY_INDEX_NULL ->
  uint8_to_Z
    (eval (GetSelectedObjectFlags k i) (exec (SetSelectedObject k i f) st))
  = Z.lor (uint8_to_Z (eval (GetSelectedObjectFlags k i) st)) (f mod 2 ^ 8).
Proof.
  intros Hi. rewrite !eval_Get, exec_Set.
  destruct (decide (i = OBJECT_ENTRY_INDEX_NULL)); [contradiction|].
  rewrite touch_slot. destruct (decide (k = k /\ i = i)); [|tauto].
  apply uint8_to_Z_or_in.
Qed.

(** X2.  [SetSelectedObject] and [ClearSelectedObject] at [(k, i)] change
    the flags of no other slot, and touch the vector of no other object
    type. *)
Theorem updates_change_one_slot st k i f k' j :
  (k', j) <> (k, i) ->
  eval (GetSelectedObjectFlags k' j) (exec (SetSelectedObject k i f) st)
  = eval (GetSelectedObjectFlags k' j) st
  /\ eval (GetSelectedObjectFlags k' j) (exec (ClearSelectedObject k i f) st)
     = eval (GetSelectedObjectFlags k' j) st
  /\ (k' <> k ->
      exec (SetSelectedObject k i f) st k' = st k'
      /\ exec (ClearSelectedObject k i f) st k' = st k').
Proof.
  intros Hne. rewrite !eval_Get, exec_Set, exec_Clear.
  assert (Hslot : forall h, slot (touch h k i st) k' j = slot st k' j).
  { intros h. rewrite touch_slot.
    destruct (decide (k = k' /\ i = j)) as [[-> ->]|_]; [congruence|done]. }
  split; [destruct (decide (i = OBJECT_ENTRY_INDEX_NULL)); [done|apply Hslot]|].
  split; [apply Hslot|].
  intros Hk. split.
  - destruct (decide (i = OBJECT_ENTRY_INDEX_NULL)); [done|].
    unfold touch. apply fn_lookup_insert_ne. congruence.
  - unfold touch. apply fn_lookup_insert_ne. congruence.
Qed.

(** X3.  Vectors only grow: after either update every vector is at least
    as long as before and its old slots are where they were;
    [ClearSelectedObject(k, i, f)] always leaves the vector of [k] long
    enough to hold slot [i], also when there was nothing to clear, and
    [SetSelectedObject] does so at every index but the null index. *)
Theorem updates_only_grow st k i f k' :
  (length (st k') <= length (exec (SetSelectedObject k i f) st k'))%nat
  /\ (length (st k') <= length (exec (ClearSelectedObject k i f) st k'))%nat
  /\ length (exec (ClearSelectedObject k i f) st k)
     = Nat.max (length (st k)) (i + 1)
  /\ (i <> OBJECT_ENTRY_INDEX_NULL ->
      length (exec (SetSelectedObject k i f) st k)
      = Nat.max (length (st k)) (i + 1))
  /\ (forall j b,
         (k', j) <> (k, i) ->
         st k' !! j = Some b ->
         exec (SetSelectedObject k i f) st k' !! j = Some b
         /\ exec (ClearSelectedObject k i f) st k' !! j = Some b).
Proof.
  rewrite exec_Set, exec_Clear.
  assert (Hlen : forall h,
             (length (st k') <= length (touch h k i st k'))%nat).
  { intros h. rewrite touch_length. case_decide; subst; lia. }
  assert (Hkeep : forall h j b,
             (k', j) <> (k, i) -> st k' !! j = Some b ->
             touch h k i st k' !! j = Some b).
  { intros h j b Hne Hb.
    assert (Hj : (j < length (touch h k i st k'))%nat).
    { apply lookup_lt_Some in Hb. specialize (Hlen h). lia. }
    destruct (lookup_lt_is_Some_2 _ _ Hj) as [b' Hb'].
    pose proof (touch_slot h k i st k' j) as Hs. unfold slot in Hs.
    rewrite Hb', Hb in Hs.
    destruct (decide (k = k' /\ i = j)) as [[-> ->]|_]; [congruence|].
    simpl in Hs. congruence. }
  split; [destruct (decide (i = OBJECT_ENTRY_INDEX_NULL)); [done|apply Hlen]|].
  split; [apply Hlen|].
  split; [rewrite touch_length; case_decide; [lia|done]|].
  split.
  - intros Hi. destruct (decide (i = OBJECT_ENTRY_INDEX_NULL)); [done|].
    rewrite touch_length. case_decide; [lia|done].
  - intros j b Hne Hb. split; [|apply Hkeep; assumption].
    destruct (decide (i = OBJECT_ENTRY_INDEX_NULL)); [done|].
    apply Hkeep; assumption.
Qed.

(** X4.  Both updates are idempotent: doing one twice leaves every vector
    as doing it once. *)
Theorem updates_idempotent st k i f k' :
  exec (SetSelectedObject k i f >> SetSelectedObject k i f) st k'
  = exec (SetSelectedObject k i f) st k'
  /\ exec (ClearSelectedObject k i f >> ClearSelectedObject k i f) st k'
     = exec (ClearSelectedObject k i f) st k'.
Proof.
  rewrite !exec_then, !exec_Set, !exec_Clear. split.
  - destruct (decide (i = OBJECT_ENTRY_INDEX_NULL)); [done|].
    rewrite touch_touch_same.
    rewrite (touch_ext _ (or_in f) k i st (or_in_idem f)). reflexivity.
  - rewrite touch_touch_same.
    rewrite (touch_ext _ (and_not f) k i st (and_not_idem f)). reflexivity.
Qed.

(** X5.  Of the 32-bit mask only the low eight bits count: an update with
    [f] is the update with [f mod 256], and a [SetSelectedObject] whose
    mask has no bit below bit 8 sets no flag. *)
Theorem updates_use_low_byte_of_mask st k i f :
  SetSelectedObject k i (f mod 2 ^ 8) st = SetSelectedObject k i f st
  /\ ClearSelectedObject k i (f mod 2 ^ 8) st = ClearSelectedObject k i f st
  /\ (f mod 2 ^ 8 = 0 ->
      forall k' j,
        eval (GetSelectedObjectFlags k' j)
          (exec (SetSelectedObject k i f) st)
        = eval (GetSelectedObjectFlags k' j) st).
Proof.
  assert (Hset : SetSelectedObject k i (f mod 2 ^ 8) st
                 = SetSelectedObject k i f st).
  { unfold SetSelectedObject. destruct (negb _); [|reflexivity].
    f_equal. f_equal. apply list_alter_ext; [|reflexivity].
    intros b _. apply (or_in_low f b). }
  split; [exact Hset|]. split.
  - unfold ClearSelectedObject. f_equal. f_equal.
    apply list_alter_ext; [|reflexivity].
    intros b _. apply (and_not_low f b).
  - intros Hlow k' j. rewrite !eval_Get, exec_Set.
    destruct (decide (i = OBJECT_ENTRY_INDEX_NULL)); [done|].
    rewrite touch_slot.
    destruct (decide (k = k' /\ i = j)) as [[-> ->]|_]; [|done].
    apply uint8_to_Z_inj. rewrite uint8_to_Z_or_in, Hlow. apply Z.lor_0_r.
Qed.

(** X6.  Updates at two different slots commute: in either order they
    leave the same vectors. *)
Theorem updates_at_distinct_slots_commute st k i f k2 i2 g k' :
  (k, i) <> (k2, i2) ->
  exec (SetSelectedObject k i f >> SetSelectedObject k2 i2 g) st k'
  = exec (SetSelectedObject k2 i2 g >> SetSelectedObject k i f) st k'
  /\ exec (SetSelectedObject k i f >> ClearSelectedObject k2 i2 g) st k'
     = exec (ClearSelectedObject k2 i2 g >> SetSelectedObject k i f) st k'
  /\ exec (ClearSelectedObject k i f >> ClearSelectedObject k2 i2 g) st k'
     = exec (ClearSelectedObject k2 i2 g >> ClearSelectedObject k i f) st k'.
Proof.
  intros Hne. rewrite !exec_then, !exec_Set, !exec_Clear.
  assert (Hne' : (k2, i2) <> (k, i)) by congruence.
  repeat split; repeat case_decide; try reflexivity;
    apply touch_touch_comm; assumption.
Qed.

(** X7.  On one slot, setting the bits of [f] and clearing the bits of [g]
    commute when [f] and [g] share no bit among the low eight. *)
Theorem Set_and_Clear_of_disjoint_masks_commute st k i f g k' :
  Z.land (f mod 2 ^ 8) (g mod 2 ^ 8) = 0 ->
  exec (SetSelectedObject k i f >> ClearSelectedObject k i g) st k'
  = exec (ClearSelectedObject k i g >> SetSelectedObject k i f) st k'.
Proof.
  intros Hdisj. rewrite !exec_then, !exec_Set, !exec_Clear.
  destruct (decide (i = OBJECT_ENTRY_INDEX_NULL)); [reflexivity|].
  rewrite !touch_touch_same.
  rewrite (touch_ext (fun b => and_not g (or_in f b))
             (fun b => or_in f (and_not g b)) k i st).
  - reflexivity.
  - intros b. symmetry. apply or_in_and_not_comm, Hdisj.
Qed.

End FlagStoreFurtherProperties.

(** The further properties of the store on the demo store, whose rides
    have the flag bytes [0x05] and [0xff]. *)
Lemma Get_after_Set_witness :
  uint8_to_Z
    (eval (GetSelectedObjectFlags ObjectType.Ride 0)
       (exec (SetSelectedObject (L := Demo.limits) ObjectType.Ride 0 258)
          Demo.store))
  = 7.
Proof.
  rewrite (Get_after_Set (L := Demo.limits) Demo.store ObjectType.Ride 0%nat
             258).
  - reflexivity.
  - discriminate.
Defined.

Lemma updates_change_one_slot_witness :
  eval (GetSelectedObjectFlags ObjectType.Ride 1)
    (exec (SetSelectedObject (L := Demo.limits) ObjectType.Ride 0 2)
       Demo.store)
  = xff.
Proof.
  rewrite (proj1 (updates_change_one_slot (L := Demo.limits) Demo.store
                    ObjectType.Ride 0%nat 2 ObjectType.Ride 1%nat
                    ltac:(discriminate))).
  reflexivity.
Defined.

Lemma updates_at_distinct_slots_commute_witness :
  exec
    (SetSelectedObject (L := Demo.limits) ObjectType.Ride 3 1
     >> ClearSelectedObject ObjectType.Ride 1 240)
    Demo.store ObjectType.Ride
  = [x05; x0f; x00; x01].
Proof.
  rewrite (proj1 (proj2 (updates_at_distinct_slots_commute
                           (L := Demo.limits) Demo.store
                           ObjectType.Ride 3%nat 1 ObjectType.Ride 1%nat 240
                           ObjectType.Ride ltac:(discriminate)))).
  reflexivity.
Defined.

Lemma Set_and_Clear_of_disjoint_masks_commute_witness :
  exec
    (SetSelectedObject (L := Demo.limits) ObjectType.Ride 0 2
     >> ClearSelectedObject ObjectType.Ride 0 4)
    Demo.store ObjectType.Ride
  = [x03; xff].
Proof.
  rewrite (Set_and_Clear_of_disjoint_masks_commute (L := Demo.limits)
             Demo.store ObjectType.Ride 0%nat 2 4 ObjectType.Ride).
  - reflexivity.
  - reflexivity.
Defined.

(** ** The object-group validator, further *)

Section ValidatorFurtherProperties.
Context {H : Headers} {F : Facade} {K : @Collaborators F}.

Implicit Types (m : Machine).

(** Case analysis on the mode and on every check of the validator. *)
Ltac validator_cases :=
  repeat
    match goal with
    | |- context [EditorCheckObjectGroupAtLeastOneSurfaceSelected ?q ?o] =>
        destruct (EditorCheckObjectGroupAtLeastOneSurfaceSelected q o);
        simpl
    | |- context [EditorCheckObjectGroupAtLeastOneSelected ?k ?o] =>
        destruct (EditorCheckObjectGroupAtLeastOneSelected k o); simpl
    end.

(** X8.  In track-designer and track-manager mode [CheckObjectSelection]
    never reports a footpath surface, footpath railings, a park entrance
    or water: the offending kind is a ride, a station, a terrain surface,
    a terrain edge, or none. *)
Theorem CheckObjectSelection_track_mode_kinds m :
  TrackDesignerOrManager m = true ->
  fst (CheckObjectSelection m)
  ∈ [ObjectType.Ride; ObjectType.Station; ObjectType.TerrainSurface;
     ObjectType.TerrainEdge; ObjectType.None].
Proof.
  unfold TrackDesignerOrManager, CheckObjectSelection. intros ->. simpl.
  validator_cases; repeat constructor.
Qed.

(** X9.  The kind and the message of [CheckObjectSelection] go together:
    the kind is [None] exactly when the message is [STR_NONE], and that is
    exactly when no rule of the mode is violated. *)
Theorem CheckObjectSelection_passes_iff m :
  (fst (CheckObjectSelection m) = ObjectType.None
   <-> snd (CheckObjectSelection m) = STR_NONE)
  /\ (CheckObjectSelection m = (ObjectType.None, STR_NONE)
      <-> Forall (fun r => violated r = false) (SelectionRules m)).
Proof.
  split.
  - unfold CheckObjectSelection.
    destruct (bool_of_Z _); simpl; validator_cases;
      split; intros; first [reflexivity | discriminate].
  - split; [|intros Hall; rewrite CheckObjectSelection_FirstFailure;
             apply FirstFailure_none, Hall].
    rewrite CheckObjectSelection_FirstFailure.
    unfold SelectionRules, violated. simpl.
    destruct (negb (TrackDesignerOrManager m)); simpl; validator_cases;
      intros Hres; try discriminate; repeat constructor.
Qed.

(** X10.  A selection that passes outside track-designer and
    track-manager mode passes under every value of the screen flags: the
    track modes ask for a part of what the scenario editor asks for. *)
Theorem CheckObjectSelection_scenario_pass_is_track_pass m flags :
  TrackDesignerOrManager m = false ->
  CheckObjectSelection m = (ObjectType.None, STR_NONE) ->
  CheckObjectSelection (set_gScreenFlags flags m)
  = (ObjectType.None, STR_NONE).
Proof.
  unfold TrackDesignerOrManager, CheckObjectSelection. intros ->. simpl.
  destruct (bool_of_Z _); simpl; validator_cases;
    intros Hres; first [reflexivity | discriminate].
Qed.

End ValidatorFurtherProperties.

(** The track designer of the demo with nothing selected: a ride is asked
    for first. *)
Lemma CheckObjectSelection_track_mode_kinds_witness :
  fst (Demo.CheckObjectSelection (set_gScreenFlags 4 Demo.machine))
  ∈ [ObjectType.Ride; ObjectType.Station; ObjectType.TerrainSurface;
     ObjectType.TerrainEdge; ObjectType.None].
Proof.
  apply (CheckObjectSelection_track_mode_kinds
           (H := Demo.headers) (K := Demo.collaborators)).
  reflexivity.
Defined.

(** All nine rules hold on the demo machine once every kind is selected,
    and so they do in the track designer. *)
Lemma CheckObjectSelection_scenario_pass_is_track_pass_witness :
  Demo.CheckObjectSelection
    (set_gScreenFlags 4
       (set_objects (H := Demo.facade)
          {| Demo.selectedKinds :=
               [ObjectType.FootpathRailings; ObjectType.Ride;
                ObjectType.Station; ObjectType.TerrainSurface;
                ObjectType.TerrainEdge; ObjectType.ParkEntrance;
                ObjectType.Water];
             Demo.nonQueueSurface := true;
             Demo.queueSurface := true |}
          Demo.machine))
  = (ObjectType.None, STR_NONE).
Proof.
  apply (CheckObjectSelection_scenario_pass_is_track_pass
           (H := Demo.headers) (K := Demo.collaborators)).
  - reflexivity.
  - reflexivity.
Defined.

(** ** The park validator, further *)

Section ParkValidatorFurtherProperties.
Context {H : Headers} {F : Facade} {K : @Collaborators F}.

Implicit Types (gs : GameState_t).

(** X11.  When [CheckPark] succeeds, the state it leaves is the old one
    with the recomputed park size and with the tiles after the route of
    every entrance, in the order of the entrance list, was searched and
    taken out of ownership. *)
Theorem CheckPark_success_state gs :
  fst (fst (CheckPark gs)) = true ->
  snd (CheckPark gs)
  = set_TileElements
      (UnownRoutes (Park.Entrances (Park gs)) (TileElements gs))
      (snd (Park_UpdateSize gs)).
Proof.
  unfold CheckPark, Park_UpdateSize.
  cbn [fst snd set_Park Park Park_set_Size Park.Entrances Park.Size
         TileElements PeepSpawns set_TileElements].
  destruct (CalculateParkSize (TileElements gs) =? 0);
    [cbn [fst snd]; discriminate|].
  destruct (Park.Entrances (Park gs)) as [|e rest] eqn:He;
    [cbn [fst snd]; discriminate|].
  rewrite bool_decide_eq_false_2 by discriminate.
  destruct (CheckPark_entrances_outcome (e :: rest) (TileElements gs))
    as (examined & rest' & Hsplit & _ & Hrest).
  destruct (fst (CheckPark_entrances (e :: rest) (TileElements gs)))
    as [msg|]; [cbn [fst snd]; discriminate|].
  destruct rest' as [|bad rest''].
  - destruct Hrest as [_ Hfinal]. rewrite app_nil_r in Hsplit.
    rewrite Hfinal, Hsplit. intros _.
    destruct (PeepSpawns gs); reflexivity.
  - destruct Hrest as (_ & Hm & _). discriminate.
Qed.

(** X12.  [CheckPark] writes the park-size cache and the tile elements
    and nothing else: with the old park size and the old tiles put back,
    the state is the one before the call.  When the park owns no land or
    has no entrance, no search is run and the tiles stay as well. *)
Theorem CheckPark_writes_size_and_tiles gs :
  set_TileElements (TileElements gs)
    (set_Park
       (Park_set_Size (Park.Size (Park gs)) (Park (snd (CheckPark gs))))
       (snd (CheckPark gs)))
  = gs
  /\ (CalculateParkSize (TileElements gs) = 0
      \/ Park.Entrances (Park gs) = [] ->
      TileElements (snd (CheckPark gs)) = TileElements gs).
Proof.
  set (size := CalculateParkSize (TileElements gs)).
  assert (Hput : forall tiles,
             let gs' :=
               set_TileElements tiles
                 (set_Park (Park_set_Size size (Park gs)) gs) in
             set_TileElements (TileElements gs)
               (set_Park (Park_set_Size (Park.Size (Park gs)) (Park gs')) gs')
             = gs).
  { intros tiles. destruct gs as [? [? ? ? ?] ? ? ? ? ? ? ? ? ? ? ? ? ? ? ?
                                    ? ? ? ? ? ? ?]. reflexivity. }
  unfold CheckPark, Park_UpdateSize.
  cbn [fst snd set_Park Park Park_set_Size Park.Entrances Park.Size
         TileElements PeepSpawns set_TileElements].
  fold size.
  destruct (Z.eqb_spec size 0) as [Hz|Hz].
  { split; [exact (Hput (TileElements gs))|reflexivity]. }
  destruct (Park.Entrances (Park gs)) as [|e rest] eqn:He.
  { split; [exact (Hput (TileElements gs))|reflexivity]. }
  rewrite bool_decide_eq_false_2 by discriminate.
  split.
  - destruct (fst (CheckPark_entrances _ _)); [apply Hput|].
    destruct (bool_decide _); apply Hput.
  - intros [Hsize|Hent]; [contradiction|discriminate].
Qed.

End ParkValidatorFurtherProperties.

(** The connected demo park passes, and its only route is given up. *)
Lemma CheckPark_success_state_witness :
  Demo.owned (TileElements (snd (Demo.CheckPark Demo.connected_park)))
  = [(4, 4)].
Proof.
  unfold Demo.CheckPark.
  rewrite (CheckPark_success_state (K := Demo.collaborators)
             Demo.connected_park).
  - reflexivity.
  - reflexivity.
Defined.

(** ** The clean-up, further *)

Lemma clamp_id v lo hi : lo <= v <= hi -> clamp v lo hi = v.
Proof.
  intros Hr. unfold clamp.
  destruct (Z.ltb_spec v lo); [lia|]. destruct (Z.ltb_spec hi v); lia.
Qed.

Lemma clamp_idem v lo hi :
  lo <= hi -> clamp (clamp v lo hi) lo hi = clamp v lo hi.
Proof. intros Hle. apply clamp_id, clamp_range, Hle. Qed.

Lemma land_0_bits a b :
  Z.land a b = 0 -> forall n, Z.testbit a n && Z.testbit b n = false.
Proof. intros Hab n. rewrite <- Z.land_spec, Hab. apply Z.bits_0. Qed.

(** The complement in 32 bits, widened with zeros. *)
Lemma uint32_not_spec c n :
  0 <= n -> Z.testbit (uint32_not c) n = (n <? 32) && negb (Z.testbit c n).
Proof.
  intros Hn. unfold uint32_not.
  rewrite Z.testbit_mod_pow2 by lia. rewrite Z.lnot_spec by assumption.
  reflexivity.
Qed.

Lemma bits_above_32 c n :
  0 <= c < 2 ^ 32 -> 32 <= n -> Z.testbit c n = false.
Proof.
  intros Hc Hn. rewrite <- (Z.mod_small c (2 ^ 32)) by assumption.
  apply Z.mod_pow2_bits_high. lia.
Qed.

(** Bit by bit. *)
Ltac bitwise n :=
  apply Z.bits_inj'; intros n ?;
  rewrite ?Z.land_spec, ?Z.lor_spec, ?uint32_not_spec, ?Z.land_spec,
    ?Z.lor_spec, ?uint32_not_spec, ?Z.bits_0 by assumption.

Section CleanupFurtherProperties.
Context {H : Headers} {F : Facade} {K : @Collaborators F}.

Implicit Types (gs : GameState_t).

(** X13.  The park flags after the clean-up of a saved game, when the
    three flags it writes are values of 32 bits that share no bit:
    no-money is set, sprites-initialised is clear, free-entry is set
    exactly when the entrance fee is zero, every other bit below bit 32
    is as before, and every bit from bit 32 on is clear, the complements
    being taken in 32 bits; the rest of the park record stays. *)
Theorem ClearMapForEditing_park_flags gs :
  ParkFlagsDisjoint ->
  ParkFlagsIn32Bits ->
  let old := Park gs in
  let new := Park (ClearMapForEditing true gs) in
  Z.land (Park.Flags new) PARK_FLAGS_NO_MONEY = PARK_FLAGS_NO_MONEY
  /\ Z.land (Park.Flags new) PARK_FLAGS_SPRITES_INITIALISED = 0
  /\ Z.land (Park.Flags new) PARK_FLAGS_PARK_FREE_ENTRY
     = (if Park.EntranceFee old =? 0 then PARK_FLAGS_PARK_FREE_ENTRY else 0)
  /\ (forall n,
         0 <= n < 32 ->
         Z.testbit PARK_FLAGS_NO_MONEY n = false ->
         Z.testbit PARK_FLAGS_PARK_FREE_ENTRY n = false ->
         Z.testbit PARK_FLAGS_SPRITES_INITIALISED n = false ->
         Z.testbit (Park.Flags new) n = Z.testbit (Park.Flags old) n)
  /\ (forall n, 32 <= n -> Z.testbit (Park.Flags new) n = false)
  /\ Park_set_Flags (Park.Flags old) new = old.
Proof.
  intros (Hnf & Hns & Hfs) (Rn & Rf & Rs). simpl.
  pose proof (land_0_bits _ _ Hnf) as Bnf.
  pose proof (land_0_bits _ _ Hns) as Bns.
  pose proof (land_0_bits _ _ Hfs) as Bfs.
  pose proof (fun n => bits_above_32 _ n Rn) as Tn.
  pose proof (fun n => bits_above_32 _ n Rf) as Tf.
  pose proof (fun n => bits_above_32 _ n Rs) as Ts.
  destruct (Park.EntranceFee (Park gs) =? 0); simpl;
    (split; [|split; [|split; [|split; [|split]]]]);
    try (bitwise n; specialize (Bnf n); specialize (Bns n);
         specialize (Bfs n);
         destruct (Z.ltb_spec n 32) as [Hlow|Hhigh];
         [|rewrite ?(Tn n Hhigh), ?(Tf n Hhigh), ?(Ts n Hhigh);
           simpl; rewrite ?andb_false_r; reflexivity];
         destruct (Z.testbit (Park.Flags (Park gs)) n),
           (Z.testbit PARK_FLAGS_NO_MONEY n),
           (Z.testbit PARK_FLAGS_PARK_FREE_ENTRY n),
           (Z.testbit PARK_FLAGS_SPRITES_INITIALISED n);
         simpl in *; congruence);
    try (intros n [Hn Hlow] H1 H2 H3;
         rewrite ?Z.land_spec, ?Z.lor_spec, ?uint32_not_spec, ?Z.land_spec,
           ?Z.lor_spec, ?uint32_not_spec by assumption;
         rewrite H1, H2, H3;
         destruct (Z.ltb_spec n 32); [|lia];
         destruct (Z.testbit (Park.Flags (Park gs)) n); reflexivity);
    try (intros n Hhigh;
         rewrite ?Z.land_spec, ?Z.lor_spec, ?uint32_not_spec, ?Z.land_spec,
           ?Z.lor_spec, ?uint32_not_spec by lia;
         destruct (Z.ltb_spec n 32); [lia|];
         simpl; rewrite ?andb_false_r; reflexivity);
    destruct (Park gs); reflexivity.
Qed.

(** X14.  A second clean-up of a saved game changes neither the finances
    nor the park record that the first one left, when the bounds of the
    clamps are in order. *)
Theorem ClearMapForEditing_twice gs :
  ClampBoundsOrdered ->
  let once := ClearMapForEditing true gs in
  let twice := ClearMapForEditing true once in
  Finances twice = Finances once /\ Park twice = Park once.
Proof.
  intros (Hguest & Hloan & Hrate). simpl. split.
  - unfold Finances. simpl. unfold FinanceResetCashToInitial.
    rewrite !clamp_idem by assumption.
    rewrite (Z.min_l (Z.min (InitialCash gs) 100000) 100000) by lia.
    reflexivity.
  - unfold Park_set_Flags. simpl. f_equal.
    destruct (Park.EntranceFee (Park gs) =? 0); bitwise n;
      destruct (n <? 32),
        (Z.testbit (Park.Flags (Park gs)) n),
        (Z.testbit PARK_FLAGS_NO_MONEY n),
        (Z.testbit PARK_FLAGS_PARK_FREE_ENTRY n),
        (Z.testbit PARK_FLAGS_SPRITES_INITIALISED n); reflexivity.
Qed.

(** X15.  The clean-up of a saved game keeps finances that lie in the
    ranges of the editor, but for the cash-on-hand, which becomes the
    initial cash. *)
Theorem ClearMapForEditing_keeps_finances_in_range gs :
  GBP 10 <= GuestInitialCash gs <= MAX_ENTRANCE_FEE ->
  InitialCash gs <= 100000 ->
  GBP 0 <= BankLoan gs <= GBP 5000000 ->
  GBP 0 <= MaxBankLoan gs <= GBP 5000000 ->
  5 <= BankLoanInterestRate gs <= MaxBankLoanInterestRate ->
  Finances (ClearMapForEditing true gs)
  = (GuestInitialCash gs, InitialCash gs, InitialCash gs, BankLoan gs,
     MaxBankLoan gs, BankLoanInterestRate gs).
Proof.
  intros Hguest Hcash Hloan Hmax Hrate. unfold Finances. simpl.
  unfold FinanceResetCashToInitial.
  rewrite !clamp_id by assumption. rewrite Z.min_l by assumption.
  reflexivity.
Qed.

(** X16.  What the clean-up does in both modes, given collaborators that
    remove the rides: the four guest counters are zero, no ride is left on
    the map or in the registry, and the step, the entrances, the peep
    spawns, the scenario name and the map size stay.  Without [fromSave]
    the finances and the park record stay as well. *)
Theorem ClearMapForEditing_scrub fromSave gs :
  (forall tiles, MapHasRides (MapRemoveAllRides tiles) = false) ->
  (forall rides, RideCount (RideInitAll rides) = 0%nat) ->
  let gs' := ClearMapForEditing fromSave gs in
  GuestCounters gs' = (0, 0, 0, 0)
  /\ MapHasRides (TileElements gs') = false
  /\ RideCount (Rides gs') = 0%nat
  /\ (EditorStep gs', Park.Entrances (Park gs'), PeepSpawns gs',
      ScenarioName gs', MapSize gs')
     = (EditorStep gs, Park.Entrances (Park gs), PeepSpawns gs,
        ScenarioName gs, MapSize gs)
  /\ (fromSave = false ->
      Finances gs' = Finances gs /\ Park gs' = Park gs).
Proof.
  intros Hmap Hrides. simpl.
  split; [reflexivity|]. split; [apply Hmap|]. split; [apply Hrides|].
  split.
  - destruct fromSave; reflexivity.
  - intros ->. split; reflexivity.
Qed.

(** X17.  The two name loops of the clean-up amount to one pass that
    gives the empty name to every guest and member of staff and leaves
    other entities alone; the entities are reset after that pass, and the
    patrol areas are recomputed from the entities after the reset. *)
Theorem ClearMapForEditing_names fromSave gs :
  let gs' := ClearMapForEditing fromSave gs in
  Entities gs'
  = ResetAllEntities
      (map (fun e => if is_peep e then Peep_SetName EmptyString e else e)
         (Entities gs))
  /\ StaffPatrolAreas gs'
     = UpdateConsolidatedPatrolAreas (Entities gs') (StaffPatrolAreas gs).
Proof.
  simpl. split; [|reflexivity]. f_equal. unfold ClearNames.
  rewrite map_map. apply map_ext. intros e. unfold is_peep.
  destruct e as [[| |] name data]; reflexivity.
Qed.

End CleanupFurtherProperties.

(** The three flags of the demo headers are single bits below bit 32.
    The demo park, with free entry flagged and an entrance fee of ten
    units, comes out with the no-money flag alone; with bit 40 set as
    well before the clean-up, it comes out the same, bit 40 cleared. *)
Lemma ClearMapForEditing_park_flags_witness :
  Park.Flags (Park (Demo.ClearMapForEditing true Demo.park)) = 2 ^ 11
  /\ Z.land (Park.Flags (Park (Demo.ClearMapForEditing true Demo.park)))
       (2 ^ 11)
     = 2 ^ 11
  /\ Z.testbit (Park.Flags (Park Demo.high_flag_park)) 40 = true
  /\ Z.testbit
       (Park.Flags (Park (Demo.ClearMapForEditing true Demo.high_flag_park)))
       40
     = false.
Proof.
  split; [reflexivity|]. split.
  - apply (ClearMapForEditing_park_flags (H := Demo.headers)
             (K := Demo.collaborators) Demo.park);
      repeat split; discriminate.
  - split; [reflexivity|].
    apply (ClearMapForEditing_park_flags (H := Demo.headers)
             (K := Demo.collaborators) Demo.high_flag_park);
      [repeat split| repeat split; discriminate |lia].
Defined.

Lemma ClearMapForEditing_twice_witness :
  Finances
    (Demo.ClearMapForEditing true (Demo.ClearMapForEditing true Demo.park))
  = (100, 100000, 100000, 50000000, 0, 5).
Proof.
  unfold Demo.ClearMapForEditing.
  rewrite (proj1 (ClearMapForEditing_twice (H := Demo.headers)
                    (K := Demo.collaborators) Demo.park
                    ltac:(repeat split; discriminate))).
  reflexivity.
Defined.

(** The demo park after a first clean-up has its finances in range. *)
Lemma ClearMapForEditing_keeps_finances_in_range_witness :
  Finances
    (Demo.ClearMapForEditing true (Demo.ClearMapForEditing true Demo.park))
  = (100, 100000, 100000, 50000000, 0, 5).
Proof.
  unfold Demo.ClearMapForEditing.
  rewrite (ClearMapForEditing_keeps_finances_in_range (H := Demo.headers)
             (K := Demo.collaborators)
             (ClearMapForEditing (H := Demo.headers)
                (K := Demo.collaborators) true Demo.park)).
  - reflexivity.
  - split; discriminate.
  - discriminate.
  - split; discriminate.
  - split; discriminate.
  - split; discriminate.
Defined.

(** The demo park as a scenario: counters and rides go, the money stays. *)
Lemma ClearMapForEditing_scrub_witness :
  let gs' := Demo.ClearMapForEditing false Demo.park in
  GuestCounters gs' = (0, 0, 0, 0)
  /\ Demo.rideElements (TileElements gs') = 0%nat
  /\ Finances gs' = (20, 250000, 4321, 100000000, -5, 2).
Proof.
  destruct (ClearMapForEditing_scrub (H := Demo.headers)
              (K := Demo.collaborators) false Demo.park)
    as (Hcounters & _ & _ & _ & Hmoney).
  - reflexivity.
  - reflexivity.
  - split; [exact Hcounters|]. split; [reflexivity|].
    destruct (Hmoney eq_refl) as [Hfin _].
    unfold Demo.ClearMapForEditing. rewrite Hfin. reflexivity.
Defined.

(** ** The session, further *)

Section SessionFurtherProperties.
Context {H : Headers} {F : Facade} {K : @Collaborators F}.

Implicit Types (m : Machine) (path : string).

Lemma AfterLoadCleanup_gameState fromSave m :
  Finances (gameState (AfterLoadCleanup fromSave m))
  = Finances (ClearMapForEditing fromSave (gameState m))
  /\ GuestCounters (gameState (AfterLoadCleanup fromSave m)) = (0, 0, 0, 0)
  /\ gScreenFlags (AfterLoadCleanup fromSave m) = SCREEN_FLAGS_SCENARIO_EDITOR
  /\ gScreenAge (AfterLoadCleanup fromSave m) = 0
  /\ gWindowUpdateTicks (AfterLoadCleanup fromSave m) = 0.
Proof. repeat split; reflexivity. Qed.

(** The result of [LoadLandscape] by reader. *)
Lemma LoadLandscape_cases path m :
  let closed := on_ui WindowCloseAll m in
  LoadLandscape path m
  = match GetFileExtensionType path with
    | FileExtension_SC6 | FileExtension_SV6
    | FileExtension_SC4 | FileExtension_SV4 => ReadS4OrS6 path closed
    | FileExtension_PARK => ReadPark path closed
    | _ => (false, closed)
    end.
Proof. reflexivity. Qed.

(** A successful load ends in [AfterLoadCleanup]. *)
Lemma LoadLandscape_success_cleanup path m :
  fst (LoadLandscape path m) = true ->
  exists fromSave m1,
    snd (LoadLandscape path m) = AfterLoadCleanup fromSave m1
    /\ (GetFileExtensionType path = FileExtension_PARK
        \/ String_IEquals (Path_GetExtension path) ".sv7" = false ->
        fromSave = true).
Proof.
  rewrite LoadLandscape_cases. simpl.
  unfold ReadS4OrS6, ReadPark.
  destruct (GetFileExtensionType path); simpl; try discriminate;
    try (destruct (snd (LoadParkFromFile path _)); simpl; [|discriminate];
         intros _; eexists _, _; split; [reflexivity|];
         intros [Hext|H7]; [discriminate|];
         rewrite ReadS4OrS6_loadedFromSave_sv7, H7; reflexivity).
  destruct (Importer_Load path _) as [[importer loadResult]|]; simpl;
    [|discriminate].
  destruct (snd (ObjectManager_LoadObjects _ _)); simpl; [|discriminate].
  destruct (snd (Importer_Import importer _)); simpl; [|discriminate].
  destruct (AfterLoadCleanup_exception _); simpl; [discriminate|].
  intros _. eexists _, _. split; reflexivity.
Qed.

Lemma LoadLandscape_refuses_other_extensions_aux path m :
  is_landscape_extension (GetFileExtensionType path) = false ->
  LoadLandscape path m = (false, on_ui WindowCloseAll m).
Proof.
  rewrite LoadLandscape_cases. simpl.
  destruct (GetFileExtensionType path); simpl;
    first [discriminate | reflexivity].
Qed.

(** X18.  [LoadLandscape] closes all windows before it looks at the path:
    a path whose extension type is none of the five it reads is refused
    with [false], and the windows are closed all the same; nothing else
    changes. *)
Theorem LoadLandscape_refuses_other_extensions path m :
  is_landscape_extension (GetFileExtensionType path) = false ->
  LoadLandscape path m = (false, on_ui WindowCloseAll m).
Proof. apply LoadLandscape_refuses_other_extensions_aux. Qed.

(** X19.  After a [LoadLandscape] that returns [true], whatever the
    reader: the screen flags are those of the scenario editor, the screen
    age and the window update ticks are zero, and the four guest counters
    are zero. *)
Theorem LoadLandscape_success path m :
  fst (LoadLandscape path m) = true ->
  let m' := snd (LoadLandscape path m) in
  gScreenFlags m' = SCREEN_FLAGS_SCENARIO_EDITOR
  /\ gScreenAge m' = 0
  /\ gWindowUpdateTicks m' = 0
  /\ GuestCounters (gameState m') = (0, 0, 0, 0)
  /\ is_landscape_extension (GetFileExtensionType path) = true.
Proof.
  intros Hok. simpl.
  destruct (LoadLandscape_success_cleanup path m Hok)
    as (fromSave & m1 & -> & _).
  destruct (AfterLoadCleanup_gameState fromSave m1)
    as (_ & Hc & Hf & Ha & Ht).
  repeat split; try assumption.
  destruct (is_landscape_extension (GetFileExtensionType path)) eqn:Hext;
    [reflexivity|].
  rewrite (LoadLandscape_refuses_other_extensions_aux path m Hext) in Hok.
  discriminate.
Qed.

End SessionFurtherProperties.

Section SessionFurtherProperties2.
Context {H : Headers} {F : Facade} {K : @Collaborators F}.

Implicit Types (m : Machine) (path : string).

Lemma ClearMapForEditing_ranges (gs : GameState_t) :
  ClampBoundsOrdered ->
  let gs' := ClearMapForEditing true gs in
  GBP 10 <= GuestInitialCash gs' <= MAX_ENTRANCE_FEE
  /\ InitialCash gs' <= 100000
  /\ Cash gs' = InitialCash gs'
  /\ GBP 0 <= BankLoan gs' <= GBP 5000000
  /\ GBP 0 <= MaxBankLoan gs' <= GBP 5000000
  /\ 5 <= BankLoanInterestRate gs' <= MaxBankLoanInterestRate.
Proof.
  intros (Hguest & Hloan & Hrate). simpl.
  repeat split; try (apply clamp_range; assumption); try reflexivity.
  apply Z.le_min_r.
Qed.

(** X20.  A successful [LoadLandscape] leaves the finances in the ranges
    of the editor, with the cash-on-hand equal to the initial cash, for a
    native park file and for every legacy file whose extension is not
    [.sv7]: a scenario file is clamped like a saved game. *)
Theorem LoadLandscape_success_finances path m :
  ClampBoundsOrdered ->
  fst (LoadLandscape path m) = true ->
  GetFileExtensionType path = FileExtension_PARK
  \/ String_IEquals (Path_GetExtension path) ".sv7" = false ->
  let gs' := gameState (snd (LoadLandscape path m)) in
  GBP 10 <= GuestInitialCash gs' <= MAX_ENTRANCE_FEE
  /\ InitialCash gs' <= 100000
  /\ Cash gs' = InitialCash gs'
  /\ GBP 0 <= BankLoan gs' <= GBP 5000000
  /\ GBP 0 <= MaxBankLoan gs' <= GBP 5000000
  /\ 5 <= BankLoanInterestRate gs' <= MaxBankLoanInterestRate.
Proof.
  intros Hbounds Hok Hext.
  destruct (LoadLandscape_success_cleanup path m Hok)
    as (fromSave & m1 & -> & Hsave).
  rewrite (Hsave Hext).
  exact (ClearMapForEditing_ranges (gameState m1) Hbounds).
Qed.


(** X22.  After [Load]: the screen flags are those of the scenario
    editor, the screen age is zero, the category is "other", the name is
    the string of [STR_MY_NEW_SCENARIO], the park flags have every bit of
    show-real-guest-names, and the map size and finances are those
    [gameStateInitAll] left.  The update ticks are not reset. *)
Theorem Load_postcondition m :
  let m' := Load m in
  let initialised := gameStateInitAll DEFAULT_MAP_SIZE (gameState m) in
  gScreenFlags m' = SCREEN_FLAGS_SCENARIO_EDITOR
  /\ gScreenAge m' = 0
  /\ gWindowUpdateTicks m' = gWindowUpdateTicks m
  /\ ScenarioCategory (gameState m') = SCENARIO_CATEGORY_OTHER
  /\ ScenarioName (gameState m') = LanguageGetString STR_MY_NEW_SCENARIO
  /\ Z.land (Park.Flags (Park (gameState m')))
       PARK_FLAGS_SHOW_REAL_GUEST_NAMES
     = PARK_FLAGS_SHOW_REAL_GUEST_NAMES
  /\ MapSize (gameState m') = MapSize initialised
  /\ Finances (gameState m') = Finances initialised.
Proof.
  simpl. repeat split; try reflexivity.
  bitwise n. destruct (Z.testbit _ n), (Z.testbit _ n); reflexivity.
Qed.

(** X23.  [LoadTrackDesigner] and [LoadTrackManager] leave machines that
    differ in the screen flags and in nothing else. *)
Theorem track_designer_and_manager_differ_in_screen_flags m flags :
  gScreenFlags (LoadTrackDesigner m) = SCREEN_FLAGS_TRACK_DESIGNER
  /\ gScreenFlags (LoadTrackManager m) = SCREEN_FLAGS_TRACK_MANAGER
  /\ set_gScreenFlags flags (LoadTrackDesigner m)
     = set_gScreenFlags flags (LoadTrackManager m).
Proof. repeat split; reflexivity. Qed.

(** X24.  [SetAllLandOwned] runs the set-for-sale action and then the buy
    action, both with the no-spend flag and both on the rectangle computed
    from the map size before the first action.  With a positive tile step
    the rectangle leaves two tiles on the low side and is in order exactly
    when the map is at least five tiles wide and high; it spans
    [MapSize - 5] tile steps. *)
Theorem SetAllLandOwned_rectangle m :
  let range := SetAllLandOwned_range (gameState m) in
  SetAllLandOwned m
  = on_gameState
      (fun gs =>
         GameActions_Execute
           (LandBuyRightsAction range LandBuyRightSetting_BuyLand
              GAME_COMMAND_FLAG_NO_SPEND)
           (GameActions_Execute
              (LandSetRightsAction range LandSetRightSetting_SetForSale
                 GAME_COMMAND_FLAG_NO_SPEND)
              gs))
      m
  /\ range_right range - range_left range
     = (tile_x (MapSize (gameState m)) - 5) * COORDS_XY_STEP
  /\ range_bottom range - range_top range
     = (tile_y (MapSize (gameState m)) - 5) * COORDS_XY_STEP
  /\ (0 < COORDS_XY_STEP ->
      (range_left range <= range_right range
       <-> 5 <= tile_x (MapSize (gameState m)))
      /\ (range_top range <= range_bottom range
          <-> 5 <= tile_y (MapSize (gameState m)))).
Proof.
  simpl. split; [reflexivity|]. split; [lia|]. split; [lia|].
  intros Hstep. split; split; nia.
Qed.

(** X25.  After a successful load [ConvertSaveToScenarioCallback] sets
    screen flags, screen age, update ticks and category, and runs no
    clean-up: finances, guest counters, park record, tiles and rides are
    the ones [ScenarioReset] left of the loaded save. *)
Theorem ConvertSaveToScenarioCallback_success path m :
  snd (LoadParkFromFile path m) = true ->
  let m' := ConvertSaveToScenarioCallback MODAL_RESULT_OK path m in
  let reset := ScenarioReset (gameState (fst (LoadParkFromFile path m))) in
  (gScreenFlags m', gScreenAge m', gWindowUpdateTicks m')
  = (SCREEN_FLAGS_SCENARIO_EDITOR, 0, 0)
  /\ ScenarioCategory (gameState m') = SCENARIO_CATEGORY_OTHER
  /\ Finances (gameState m') = Finances reset
  /\ GuestCounters (gameState m') = GuestCounters reset
  /\ (Park (gameState m'), TileElements (gameState m'), Rides (gameState m'))
     = (Park reset, TileElements reset, Rides reset).
Proof.
  intros Hload. unfold ConvertSaveToScenarioCallback.
  rewrite Z.eqb_refl, Hload. simpl. repeat split; reflexivity.
Qed.

End SessionFurtherProperties2.

(** On the demo a file loads unless its name is empty; [notes.txt] has no
    extension that [LoadLandscape] reads. *)
Lemma LoadLandscape_refuses_other_extensions_witness :
  Demo.LoadLandscape "notes.txt"
    (set_ui (H := Demo.facade) [WindowClass_MainWindow] Demo.machine)
  = (false, Demo.machine).
Proof.
  unfold Demo.LoadLandscape.
  rewrite (LoadLandscape_refuses_other_extensions (H := Demo.headers)
             (K := Demo.collaborators) "notes.txt").
  - reflexivity.
  - reflexivity.
Defined.

Lemma LoadLandscape_success_witness :
  let m' := snd (Demo.LoadLandscape "park.sv6" Demo.machine) in
  (gScreenFlags m', gScreenAge m', gWindowUpdateTicks m') = (2, 0, 0)
  /\ GuestCounters (gameState m') = (0, 0, 0, 0).
Proof.
  destruct (LoadLandscape_success (H := Demo.headers)
              (K := Demo.collaborators) "park.sv6" Demo.machine)
    as (Hf & Ha & Ht & Hc & _).
  - reflexivity.
  - cbv zeta in *. unfold Demo.LoadLandscape.
    split; [rewrite Hf, Ha, Ht; reflexivity|exact Hc].
Defined.

(** The scenario [park.sc6] of the demo comes out clamped. *)
Lemma LoadLandscape_success_finances_witness :
  let gs' := gameState (snd (Demo.LoadLandscape "park.sc6" Demo.machine)) in
  0 <= BankLoan gs' <= 50000000 /\ Cash gs' = InitialCash gs'.
Proof.
  destruct (LoadLandscape_success_finances (H := Demo.headers)
              (K := Demo.collaborators) "park.sc6" Demo.machine)
    as (_ & _ & Hcash & Hloan & _).
  - repeat split; discriminate.
  - reflexivity.
  - right. reflexivity.
  - split; [exact Hloan|exact Hcash].
Defined.


Lemma ConvertSaveToScenarioCallback_success_witness :
  let m' := Demo.ConvertSaveToScenarioCallback 1 "park.sv6" Demo.machine in
  (gScreenFlags m', gScreenAge m', gWindowUpdateTicks m') = (2, 0, 0)
  /\ Finances (gameState m') = (20, 250000, 4321, 100000000, -5, 2).
Proof.
  destruct (ConvertSaveToScenarioCallback_success (H := Demo.headers)
              (K := Demo.collaborators) "park.sv6" Demo.machine)
    as (Hglobals & _ & Hfin & _).
  - reflexivity.
  - cbv zeta in *. unfold Demo.ConvertSaveToScenarioCallback.
    split; [exact Hglobals|]. etransitivity; [exact Hfin|reflexivity].
Defined.

(** ** The windows of the steps *)

Section StepWindowsProperties.
Context {H : Headers} {F : Facade} {K : @Collaborators F}
  {W : @StepWindows F}.

Implicit Types (m : Machine) (c : EditorWindowClass).

(** The editor bit of the screen flags. *)
Lemma editor_bit m :
  negb (bool_of_Z (Z.land (gScreenFlags m) SCREEN_FLAGS_EDITOR)) = true
  <-> Z.land (gScreenFlags m) SCREEN_FLAGS_EDITOR = 0.
Proof.
  unfold bool_of_Z. rewrite negb_involutive. apply Z.eqb_eq.
Qed.

(** X26.  [OpenWindowsForCurrentStep] does nothing when no editor bit is
    in the screen flags, when the step has no window of its own (the
    landscape editor and later steps, or [Invalid]), when the window of
    the step is open already, and, at object selection, when the
    install-track window is open. *)
Theorem OpenWindowsForCurrentStep_does_nothing m :
  Z.land (gScreenFlags m) SCREEN_FLAGS_EDITOR = 0
  \/ StepWindow (EditorStep (gameState m)) = None
  \/ (exists c,
        StepWindow (EditorStep (gameState m)) = Some c
        /\ window_found c m = true)
  \/ (EditorStep (gameState m) = EditorStep.ObjectSelection
      /\ window_found WindowClass_InstallTrack m = true) ->
  OpenWindowsForCurrentStep m = m.
Proof.
  unfold OpenWindowsForCurrentStep.
  destruct (negb (bool_of_Z _)) eqn:Hbit; [reflexivity|].
  intros [Hno|[Hstep|[(c & Hstep & Hfound)|[Hstep Hfound]]]].
  - apply editor_bit in Hno. congruence.
  - destruct (EditorStep (gameState m)); try discriminate; reflexivity.
  - destruct (EditorStep (gameState m)); simpl in Hstep;
      try discriminate; injection Hstep as <-; rewrite Hfound;
      reflexivity.
  - rewrite Hstep, Hfound.
    destruct (window_found WindowClass_EditorObjectSelection m);
      reflexivity.
Qed.

(** X27.  Otherwise [OpenWindowsForCurrentStep] opens the window of the
    step and nothing but it; all objects are unloaded first only at
    object selection in track-manager mode. *)
Theorem OpenWindowsForCurrentStep_opens m c :
  Z.land (gScreenFlags m) SCREEN_FLAGS_EDITOR <> 0 ->
  StepWindow (EditorStep (gameState m)) = Some c ->
  window_found c m = false ->
  (EditorStep (gameState m) = EditorStep.ObjectSelection ->
   window_found WindowClass_InstallTrack m = false) ->
  OpenWindowsForCurrentStep m
  = ContextOpenStepWindow c
      (if bool_decide (EditorStep (gameState m) = EditorStep.ObjectSelection)
          && bool_of_Z (Z.land (gScreenFlags m) SCREEN_FLAGS_TRACK_MANAGER)
       then on_objects ObjectManagerUnloadAllObjects m
       else m).
Proof.
  intros Hbit Hstep Hfound Hinstall. unfold OpenWindowsForCurrentStep.
  destruct (negb (bool_of_Z _)) eqn:Hb;
    [apply editor_bit in Hb; contradiction|].
  destruct (EditorStep (gameState m)); simpl in Hstep; try discriminate;
    injection Hstep as <-; rewrite Hfound; simpl;
    rewrite ?Hinstall by reflexivity; reflexivity.
Qed.

(** Either nothing happens, or the window of the step is opened on a
    machine with the same step and screen flags. *)
Lemma OpenWindowsForCurrentStep_outcome m :
  OpenWindowsForCurrentStep m = m
  \/ exists c m1,
       OpenWindowsForCurrentStep m = ContextOpenStepWindow c m1
       /\ gScreenFlags m1 = gScreenFlags m
       /\ EditorStep (gameState m1) = EditorStep (gameState m)
       /\ StepWindow (EditorStep (gameState m)) = Some c.
Proof.
  unfold OpenWindowsForCurrentStep.
  destruct (negb (bool_of_Z _)); [left; reflexivity|].
  destruct (EditorStep (gameState m)) eqn:Hs; try (left; reflexivity).
  - destruct (window_found WindowClass_EditorObjectSelection m);
      [left; reflexivity|].
    destruct (window_found WindowClass_InstallTrack m);
      [left; reflexivity|].
    right. eexists _, _. split; [reflexivity|].
    destruct (bool_of_Z _);
      (split; [reflexivity|split; [exact Hs|reflexivity]]).
  - destruct (window_found _ m); [left; reflexivity|].
    right. eexists _, _.
    split; [reflexivity|split; [reflexivity|split; [exact Hs|reflexivity]]].
  - destruct (window_found _ m); [left; reflexivity|].
    right. eexists _, _.
    split; [reflexivity|split; [reflexivity|split; [exact Hs|reflexivity]]].
  - destruct (window_found _ m); [left; reflexivity|].
    right. eexists _, _.
    split; [reflexivity|split; [reflexivity|split; [exact Hs|reflexivity]]].
Qed.

(** X28.  With a window manager under which an opened window is found
    again and opening changes neither the step nor the screen flags, a
    second [OpenWindowsForCurrentStep] does nothing: no second window is
    opened and the objects are not unloaded again. *)
Theorem OpenWindowsForCurrentStep_twice m :
  StepWindowContract ->
  OpenWindowsForCurrentStep (OpenWindowsForCurrentStep m)
  = OpenWindowsForCurrentStep m.
Proof.
  intros [Hfound Hstep Hflags].
  destruct (OpenWindowsForCurrentStep_outcome m)
    as [Hsame|(c & m1 & Hopen & _ & Hs & Hc)].
  - rewrite Hsame. exact Hsame.
  - rewrite Hopen. unfold OpenWindowsForCurrentStep.
    rewrite Hflags, Hstep, Hs.
    destruct (negb (bool_of_Z _)); [reflexivity|].
    destruct (EditorStep (gameState m)); simpl in Hc; try discriminate;
      injection Hc as <-; rewrite Hfound; reflexivity.
Qed.

End StepWindowsProperties.

(** The window manager of the second demo keeps the contract. *)
Lemma DemoWindows_contract :
  StepWindowContract (W := DemoWindows.windows).
Proof.
  split; try reflexivity.
  intros c m. unfold window_found. simpl.
  rewrite bool_decide_eq_true_2; [reflexivity|]. constructor.
Qed.

(** Outside the editor (screen flags [1]) nothing happens. *)
Lemma OpenWindowsForCurrentStep_does_nothing_witness :
  DemoWindows.OpenWindowsForCurrentStep
    (set_gScreenFlags 1 DemoWindows.machine)
  = set_gScreenFlags 1 DemoWindows.machine.
Proof.
  apply (OpenWindowsForCurrentStep_does_nothing (H := Demo.headers)
           (K := DemoWindows.collaborators) (W := DemoWindows.windows)).
  left. reflexivity.
Defined.

(** The track manager at object selection: the seven objects are unloaded
    and the object-selection window is opened. *)
Lemma OpenWindowsForCurrentStep_opens_witness :
  let m' := DemoWindows.OpenWindowsForCurrentStep DemoWindows.machine in
  ui m' = [WindowClass_EditorObjectSelection] /\ objects m' = 0%nat.
Proof.
  cbv zeta. unfold DemoWindows.OpenWindowsForCurrentStep.
  rewrite (OpenWindowsForCurrentStep_opens (H := Demo.headers)
             (K := DemoWindows.collaborators) (W := DemoWindows.windows)
             DemoWindows.machine WindowClass_EditorObjectSelection).
  - split; reflexivity.
  - discriminate.
  - reflexivity.
  - reflexivity.
  - reflexivity.
Defined.

Lemma OpenWindowsForCurrentStep_twice_witness :
  ui (DemoWindows.OpenWindowsForCurrentStep
        (DemoWindows.OpenWindowsForCurrentStep DemoWindows.machine))
  = [WindowClass_EditorObjectSelection].
Proof.
  unfold DemoWindows.OpenWindowsForCurrentStep.
  rewrite (OpenWindowsForCurrentStep_twice (H := Demo.headers)
             (K := DemoWindows.collaborators) (W := DemoWindows.windows)
             DemoWindows.machine DemoWindows_contract).
  reflexivity.
Defined.
